(** * The tool-invocation pipeline of the AI co-scientist orchestrator

    A shallow embedding of [src/models.py], [src/tools/composio_client.py]
    and [src/tools/custom_tools.py], and the properties of the pipeline
    proved (or refuted) on it.

    Layout:
    - [Py]: the fragment of the Python runtime the code relies on (values,
      truthiness, [str], [repr], [json.dumps], substring test, what a
      console can print);
    - exceptions and the call-recording monad the wrappers run in;
    - the schema layer (the pydantic models);
    - the simulated tool router client;
    - the four tool wrappers;
    - the theorems. *)

From Stdlib Require Import ZArith List String Ascii Bool Lia.
From Stdlib Require Import DecimalString DecimalPos DecimalZ.
Import ListNotations.

Local Open Scope string_scope.
Local Open Scope Z_scope.
Set Warnings "-register-all".

(* ================================================================== *)
(** * The Python runtime fragment *)
(* ================================================================== *)

Module Py.

(** The values that flow through the pipeline: what [json.loads] produces
    and what the client's dict literals hold.  A dict is an association
    list in insertion order; every dict of this code base has [str] keys.
    A [float] is held as its [repr] text ([repr] is injective on floats and
    the code never computes with one).  A [str] is a Rocq string whose
    characters stand for code points below 256. *)
Inductive value : Type :=
| VNone
| VBool (b : bool)
| VInt (n : Z)
| VFloat (r : string)
| VStr (s : string)
| VList (l : list value)
| VDict (d : list (string * value)).

(** ** Characters *)

Definition dquote : ascii := "034"%char.
Definition squote : ascii := "039"%char.
Definition backslash : ascii := "092"%char.

Definition hex_digit (n : N) : ascii :=
  match n with
  | 0%N => "0" | 1%N => "1" | 2%N => "2" | 3%N => "3"
  | 4%N => "4" | 5%N => "5" | 6%N => "6" | 7%N => "7"
  | 8%N => "8" | 9%N => "9" | 10%N => "a" | 11%N => "b"
  | 12%N => "c" | 13%N => "d" | 14%N => "e" | _ => "f"
  end%char.

(** The two lowercase hex digits of a code point below 256. *)
Definition hex2 (c : ascii) : string :=
  let n := N_of_ascii c in
  String (hex_digit (n / 16)) (String (hex_digit (n mod 16)) "").

(** [str.isprintable] on one code point below 256: the ASCII graphic
    characters and space, and Latin-1 from U+00A1 on, U+00AD apart. *)
Definition printable (c : ascii) : bool :=
  let n := N_of_ascii c in
  ((32 <=? n) && (n <? 127) || (161 <=? n) && negb (n =? 173))%N.

(** ** Strings *)

(** [needle in hay] on two [str]. *)
Fixpoint contains (needle hay : string) : bool :=
  String.prefix needle hay ||
  match hay with
  | EmptyString => false
  | String _ rest => contains needle rest
  end.

Fixpoint has_char (c : ascii) (s : string) : bool :=
  match s with
  | EmptyString => false
  | String a rest => Ascii.eqb a c || has_char c rest
  end.

(** Whether the console's encoding can encode the text [s], that is
    whether [print(s)] writes it rather than raising [UnicodeEncodeError].
    Every console encodes ASCII; [console] tells which other code points
    it has (none for an ASCII console, all of them for UTF-8, for which
    the one text that fails holds a lone surrogate, a code point the texts
    of this model do not reach). *)
Definition ascii_char (c : ascii) : bool := (N_of_ascii c <? 128)%N.

Fixpoint encodable (console : ascii -> bool) (s : string) : bool :=
  match s with
  | EmptyString => true
  | String c rest => (ascii_char c || console c) && encodable console rest
  end.

(** [sep.join(parts)]. *)
Fixpoint join (sep : string) (parts : list string) : string :=
  match parts with
  | [] => ""
  | [p] => p
  | p :: rest => p ++ sep ++ join sep rest
  end.

(** [str(n)] for an [int]. *)
Definition Z_to_string (z : Z) : string :=
  NilZero.string_of_int (Z.to_int z).

(** ** [repr] *)

(** One character of [repr(s)] inside the quote [q]. *)
Definition repr_char (q c : ascii) : string :=
  if Ascii.eqb c q || Ascii.eqb c backslash then String backslash (String c "")
  else if Ascii.eqb c "009" then String backslash "t"
  else if Ascii.eqb c "010" then String backslash "n"
  else if Ascii.eqb c "013" then String backslash "r"
  else if printable c then String c ""
  else String backslash (String "x" (hex2 c)).

Fixpoint repr_chars (q : ascii) (s : string) : string :=
  match s with
  | EmptyString => ""
  | String c rest => repr_char q c ++ repr_chars q rest
  end.

(** [repr(s)] for a [str]: single quotes, unless the text holds a single
    quote and no double quote. *)
Definition repr_str (s : string) : string :=
  let q := if has_char squote s && negb (has_char dquote s)
           then dquote else squote in
  String q (repr_chars q s ++ String q "").

(** [repr(v)]. *)
Fixpoint repr (v : value) : string :=
  match v with
  | VNone => "None"
  | VBool true => "True"
  | VBool false => "False"
  | VInt n => Z_to_string n
  | VFloat r => r
  | VStr s => repr_str s
  | VList l => "[" ++ join ", " (map repr l) ++ "]"
  | VDict d =>
      "{" ++ join ", "
               (map (fun kv => match kv with
                               | (k, x) => repr_str k ++ ": " ++ repr x
                               end) d)
          ++ "}"
  end.

(** [str(v)], which is also what an f-string field formats [v] to, for a
    value that has a text (see [text_of] below for the values that have
    none). *)
Definition str (v : value) : string :=
  match v with
  | VStr s => s
  | _ => repr v
  end.

(** ** [json.dumps] with its default options *)

Definition dumps_char (c : ascii) : string :=
  if Ascii.eqb c dquote || Ascii.eqb c backslash then String backslash (String c "")
  else if Ascii.eqb c "010" then String backslash "n"
  else if Ascii.eqb c "013" then String backslash "r"
  else if Ascii.eqb c "009" then String backslash "t"
  else if Ascii.eqb c "008" then String backslash "b"
  else if Ascii.eqb c "012" then String backslash "f"
  else if ((32 <=? N_of_ascii c) && (N_of_ascii c <? 127))%N then String c ""
  else String backslash ("u00" ++ hex2 c).

Fixpoint dumps_chars (s : string) : string :=
  match s with
  | EmptyString => ""
  | String c rest => dumps_char c ++ dumps_chars rest
  end.

Definition dumps_str (s : string) : string :=
  String dquote (dumps_chars s ++ String dquote "").

Definition dumps_float (r : string) : string :=
  if String.eqb r "nan" then "NaN"
  else if String.eqb r "inf" then "Infinity"
  else if String.eqb r "-inf" then "-Infinity"
  else r.

Fixpoint json_dumps (v : value) : string :=
  match v with
  | VNone => "null"
  | VBool true => "true"
  | VBool false => "false"
  | VInt n => Z_to_string n
  | VFloat r => dumps_float r
  | VStr s => dumps_str s
  | VList l => "[" ++ join ", " (map json_dumps l) ++ "]"
  | VDict d =>
      "{" ++ join ", "
               (map (fun kv => match kv with
                               | (k, x) => dumps_str k ++ ": " ++ json_dumps x
                               end) d)
          ++ "}"
  end.

(** ** Truthiness, lookup and membership *)

(** [bool(v)]. *)
Definition truthy (v : value) : bool :=
  match v with
  | VNone => false
  | VBool b => b
  | VInt n => negb (n =? 0)
  | VFloat r => negb (String.eqb r "0.0" || String.eqb r "-0.0")
  | VStr s => negb (String.eqb s "")
  | VList l => match l with [] => false | _ => true end
  | VDict d => match d with [] => false | _ => true end
  end.

(** [a or b]. *)
Definition or_else (a b : value) : value := if truthy a then a else b.

(** The value bound to [k] in a dict's items. *)
Fixpoint lookup (k : string) (d : list (string * value)) : option value :=
  match d with
  | [] => None
  | (k', x) :: rest => if String.eqb k' k then Some x else lookup k rest
  end.

(** [v in strs] for a list of [str]: only a [str] compares equal to one. *)
Definition in_strs (v : value) (strs : list string) : bool :=
  match v with
  | VStr s => existsb (String.eqb s) strs
  | _ => false
  end.

(** Whether [hash(v)] succeeds: lists and dicts are unhashable. *)
Definition hashable (v : value) : bool :=
  match v with
  | VList _ | VDict _ => false
  | _ => true
  end.

(** The name Python prints for the type of [v]. *)
Definition type_name (v : value) : string :=
  match v with
  | VNone => "NoneType"
  | VBool _ => "bool"
  | VInt _ => "int"
  | VFloat _ => "float"
  | VStr _ => "str"
  | VList _ => "list"
  | VDict _ => "dict"
  end.

End Py.
Import Py.

(* ================================================================== *)
(** * Exceptions, client calls and the monad of the wrappers *)
(* ================================================================== *)

(** The exceptions this code can meet.  [ValidationError] is pydantic's: it
    carries the model's name and, in field order, each field that failed
    with the kind of failure ([missing], [string_type], [list_type]).
    [ValueError] and [RecursionError] are what the interpreter raises on
    an integer of more than 4300 digits and on nesting beyond its limit;
    [UnicodeEncodeError] is what [print] raises on a text the console
    cannot encode. *)
Inductive exn : Type :=
| JSONDecodeError
| TypeError (detail : string)
| AttributeError (detail : string)
| KeyError (key : string)
| IndexError
| ValidationError (model : string) (errors : list (string * string))
| ValueError (detail : string)
| RecursionError
| UnicodeEncodeError (text : string).

Definition result (A : Type) : Type := (exn + A)%type.

(** One invocation of a method of the shared [COMPOSIO_CLIENT], with its
    arguments. *)
Inductive call : Type :=
| CreatePlan (use_case : string) (primary_tool_slugs : list value)
| MultiExecute (execution_requests : list value) (session_id : string)
| RemoteWorkbench (action : string) (key data : value)
| RemoteBash (script : string).

(** A computation that may raise, over the record of the client calls made
    so far. *)
Definition M (A : Type) : Type := list call -> result A * list call.

Definition ret {A : Type} (a : A) : M A := fun l => (inr a, l).

Definition raise {A : Type} (e : exn) : M A := fun l => (inl e, l).

Definition bind {A B : Type} (m : M A) (k : A -> M B) : M B :=
  fun l => match m l with
           | (inr a, l') => k a l'
           | (inl e, l') => (inl e, l')
           end.

Definition lift {A : Type} (r : result A) : M A := fun l => (r, l).

(** Entering a client method. *)
Definition record (c : call) : M unit := fun l => (inr tt, (l ++ [c])%list).

Notation "x <- m ;; k" := (bind m (fun x => k))
  (at level 61, m at next level, right associativity).
Notation "m ;; k" := (bind m (fun _ => k))
  (at level 61, right associativity).

(** [for x in xs: body x]. *)
Fixpoint for_each {A : Type} (xs : list A) (body : A -> M unit) : M unit :=
  match xs with
  | [] => ret tt
  | x :: rest => body x ;; for_each rest body
  end.

(** [[f x for x in xs]], and the accumulating loop that appends one item
    per round. *)
Fixpoint map_m {A B : Type} (f : A -> M B) (xs : list A) : M (list B) :=
  match xs with
  | [] => ret []
  | x :: rest => y <- f x ;; ys <- map_m f rest ;; ret (y :: ys)
  end.

(** ** Operations on values that can raise *)

(** [print(line)]: nothing is kept of what is printed, but printing
    raises on a line the console cannot encode. *)
Definition print_line (console : ascii -> bool) (line : string) : M unit :=
  if encodable console line then ret tt else raise (UnicodeEncodeError line).

(** [str(v)] where [v] may have no text: [str_error v] is the exception
    the interpreter raises then ([ValueError] for an integer of more than
    4300 digits, [RecursionError] for nesting beyond its limit).  A [str]
    is its own text. *)
Definition text_of (str_error : value -> option exn) (v : value) : M string :=
  match v with
  | VStr s => ret s
  | _ => match str_error v with
         | Some e => raise e
         | None => ret (str v)
         end
  end.

(** [d[k]] for a [str] key [k]. *)
Definition getitem (d : value) (k : string) : M value :=
  match d with
  | VDict items =>
      match lookup k items with
      | Some x => ret x
      | None => raise (KeyError k)
      end
  | _ => raise (TypeError (type_name d ++ " cannot be indexed by a str"))
  end.

(** [d.get(k, default)]: only a dict has the method. *)
Definition get (d : value) (k : string) (default : value) : M value :=
  match d with
  | VDict items =>
      match lookup k items with
      | Some x => ret x
      | None => ret default
      end
  | _ => raise (AttributeError (type_name d ++ " object has no attribute get"))
  end.

(** [xs[i]] on a list. *)
Definition index (xs : list value) (i : nat) : M value :=
  match nth_error xs i with
  | Some x => ret x
  | None => raise IndexError
  end.

Fixpoint chars (s : string) : list value :=
  match s with
  | EmptyString => []
  | String c rest => VStr (String c "") :: chars rest
  end.

(** The items a [for] loop over [v] visits: the elements of a list, the
    keys of a dict, the characters of a [str]. *)
Definition iter (v : value) : M (list value) :=
  match v with
  | VList l => ret l
  | VDict d => ret (map (fun kv => VStr (fst kv)) d)
  | VStr s => ret (chars s)
  | _ => raise (TypeError (type_name v ++ " object is not iterable"))
  end.

(** [table.get(k)] where the key is any value: hashing a list or a dict
    raises, and only a [str] can equal one of the table's keys. *)
Definition get_by_value (table : list (string * value)) (k : value) : M value :=
  if hashable k then
    match k with
    | VStr s => match lookup s table with Some x => ret x | None => ret VNone end
    | _ => ret VNone
    end
  else raise (TypeError ("unhashable type: " ++ type_name k)).

(* ================================================================== *)
(** * Schema layer ([src/models.py]) *)
(* ================================================================== *)

(** The models are pydantic [BaseModel]s (version 2, which the crewai
    package requires).  Every field is required; a [str] field accepts a
    [str] only and a [List[str]] field a list of [str] only (pydantic 1
    would also turn a number into a text, which no statement below turns
    on); keys that name no field are ignored.  Nothing constrains the
    length of a text or of a list. *)

Record ResearchQuery : Type := {
  topic : string;
  target_output : string;
  keywords : list string
}.

Record ToolExecutionRequest : Type := {
  tool_slug : string;
  arguments : list (string * value)
}.

Record FinalSynthesis : Type := {
  hypothesis : string;
  protocol_summary : string;
  analysis_findings : string;
  prior_art_reference_links : list string;
  next_steps : string
}.

Definition ResearchQuery_fields : list string :=
  ["topic"; "target_output"; "keywords"].

Definition FinalSynthesis_fields : list string :=
  ["hypothesis"; "protocol_summary"; "analysis_findings";
   "prior_art_reference_links"; "next_steps"].

Definition checked (A : Type) : Type := (list (string * string) + A)%type.

Definition field_str (f : string) (d : list (string * value)) : checked string :=
  match lookup f d with
  | None => inl [(f, "missing")]
  | Some (VStr s) => inr s
  | Some _ => inl [(f, "string_type")]
  end.

(** The items of a [List[str]] field: one error per item that is no [str]. *)
Fixpoint str_items (f : string) (l : list value) : checked (list string) :=
  match l with
  | [] => inr []
  | x :: rest =>
      match x, str_items f rest with
      | VStr s, inr ss => inr (s :: ss)
      | VStr _, inl es => inl es
      | _, inr _ => inl [(f, "string_type")]
      | _, inl es => inl ((f, "string_type") :: es)
      end
  end.

Definition field_str_list (f : string) (d : list (string * value))
  : checked (list string) :=
  match lookup f d with
  | None => inl [(f, "missing")]
  | Some (VList l) => str_items f l
  | Some _ => inl [(f, "list_type")]
  end.

Definition errors_of {A : Type} (c : checked A) : list (string * string) :=
  match c with
  | inl es => es
  | inr _ => []
  end.

Definition not_a_mapping (v : value) : exn :=
  TypeError ("argument after ** must be a mapping, not " ++ type_name v).

(** The constructor call of [ResearchQuery] on an unpacked mapping. *)
Definition ResearchQuery_init (kwargs : value) : result ResearchQuery :=
  match kwargs with
  | VDict d =>
      let t := field_str "topic" d in
      let o := field_str "target_output" d in
      let k := field_str_list "keywords" d in
      match t, o, k with
      | inr t', inr o', inr k' =>
          inr {| topic := t'; target_output := o'; keywords := k' |}
      | _, _, _ =>
          inl (ValidationError "ResearchQuery"
                 (errors_of t ++ errors_of o ++ errors_of k)%list)
      end
  | _ => inl (not_a_mapping kwargs)
  end.

(** The constructor call of [FinalSynthesis] on an unpacked mapping. *)
Definition FinalSynthesis_init (kwargs : value) : result FinalSynthesis :=
  match kwargs with
  | VDict d =>
      let h := field_str "hypothesis" d in
      let p := field_str "protocol_summary" d in
      let a := field_str "analysis_findings" d in
      let r := field_str_list "prior_art_reference_links" d in
      let n := field_str "next_steps" d in
      match h, p, a, r, n with
      | inr h', inr p', inr a', inr r', inr n' =>
          inr {| hypothesis := h'; protocol_summary := p';
                 analysis_findings := a'; prior_art_reference_links := r';
                 next_steps := n' |}
      | _, _, _, _, _ =>
          inl (ValidationError "FinalSynthesis"
                 (errors_of h ++ errors_of p ++ errors_of a
                  ++ errors_of r ++ errors_of n)%list)
      end
  | _ => inl (not_a_mapping kwargs)
  end.

(* ================================================================== *)
(** * The simulated tool router client ([src/tools/composio_client.py]) *)
(* ================================================================== *)

(** The placeholder tool slugs. *)
Definition TOOL_SLUGS : list (string * value) :=
  [ ("ARXIV_SEARCH", VStr "arxiv_search_tool_slug");
    ("PUBCHEM_QUERY", VStr "pubchem_query_tool_slug");
    ("NOTION_DRAFT", VStr "notion_create_page_slug");
    ("REMOTE_BASH", VStr "COMPOSIO_REMOTE_BASH_TOOL");
    ("MULTI_EXECUTE", VStr "COMPOSIO_MULTI_EXECUTE_TOOL");
    ("CREATE_PLAN", VStr "COMPOSIO_CREATE_PLAN");
    ("REMOTE_WORKBENCH", VStr "COMPOSIO_REMOTE_WORKBENCH") ].

(** The two keys [remote_workbench] answers a retrieve for. *)
Definition KNOWN_KEYS : list string :=
  ["ARXIV-RAW-DATA-KEY-123"; "PUBCHEM-RAW-DATA-KEY-456"].

(** What [remote_workbench] returns on its last line. *)
Definition workbench_failure : value :=
  VDict [("successful", VBool false); ("error", VStr "Invalid action or key.")].

(** The dict [remote_bash_tool] serialises as its stdout. *)
Definition analysis_output : value :=
  VDict [ ("final_clean_compounds", VInt 3);
          ("critical_risk_flag", VBool false);
          ("summary", VStr "Data cleaning complete. Identified 3 high-potential compounds that passed initial risk filtering.") ].

Section Pipeline.

(** Python's built-in [hash] on a [str]: some function of the text, fixed
    for the life of the process. *)
Variable hash : string -> Z.

(** The console [print] writes to: the code points it encodes besides
    ASCII. *)
Variable console : ascii -> bool.

(** The exception [str(v)] raises, for a value that has no text. *)
Variable str_error : value -> option exn.

(** [json.loads]: the value decoded, or the exception raised, which is
    [json.JSONDecodeError] on a text that is no JSON, but also
    [ValueError] on an integer literal of more than 4300 digits and
    [RecursionError] on nesting beyond the interpreter's limit. *)
Variable json_loads : string -> result value.

(** [str(e)] for an exception: the message the interpreter or pydantic
    composed. *)
Variable exn_str : exn -> string.

(** ** [class ComposioClient] *)

(** Each method starts by printing a line.  The lines of
    [multi_execute_tool], of [remote_bash_tool] and of a successful
    retrieve are ASCII whatever the arguments (a count, a literal, one of
    the two literal keys), so these prints cannot raise and are left out;
    the lines of [create_plan] and of a store hold a text of the caller
    and are printed here. *)

Definition create_plan (use_case : string) (primary_tool_slugs : list value)
  : M value :=
  record (CreatePlan use_case primary_tool_slugs) ;;
  print_line console ("-> Calling CREATE_PLAN for: " ++ use_case) ;;
  slug0 <- index primary_tool_slugs 0 ;;
  text0 <- text_of str_error slug0 ;;
  slug1 <- index primary_tool_slugs 1 ;;
  text1 <- text_of str_error slug1 ;;
  ret (VDict
    [ ("successful", VBool true);
      ("complexity_assessment",
       VStr "Hard (requires multi-agent collaboration and large file processing).");
      ("workflow_steps",
       VList
         [ VStr ("1. Literature Review (Parallel search using " ++ text0
                 ++ " and " ++ text1 ++ ")");
           VStr "2. Store raw results in Remote Workbench.";
           VStr "3. Execute Python Code (Remote Bash) for data cleaning and initial analysis.";
           VStr "4. Draft Final Hypothesis and Protocol.";
           VStr "5. Publish report to Notion/Docs." ]);
      ("session_id", VStr ("sess-" ++ Z_to_string (hash use_case)));
      ("reasoning",
       VStr "The complexity requires orchestration across research tools and a custom execution environment.") ]).

Definition multi_execute_tool (execution_requests : list value)
  (session_id : string) : M value :=
  record (MultiExecute execution_requests session_id) ;;
  arxiv <- getitem (VDict TOOL_SLUGS) "ARXIV_SEARCH" ;;
  pubchem <- getitem (VDict TOOL_SLUGS) "PUBCHEM_QUERY" ;;
  ret (VDict
    [ ("successful", VBool true);
      ("results",
       VList
         [ VDict [ ("tool_slug", arxiv);
                   ("output_summary",
                    VStr "Found 5 highly relevant papers. Raw text stored in workbench.");
                   ("workbench_key", VStr "ARXIV-RAW-DATA-KEY-123");
                   ("status", VStr "completed") ];
           VDict [ ("tool_slug", pubchem);
                   ("output_summary",
                    VStr "Retrieved 2 candidate chemical structures. Raw data stored in workbench.");
                   ("workbench_key", VStr "PUBCHEM-RAW-DATA-KEY-456");
                   ("status", VStr "completed") ] ]);
      ("session_id", VStr session_id) ]).

Definition remote_workbench (action : string) (key data : value) : M value :=
  record (RemoteWorkbench action key data) ;;
  if String.eqb action "store" then
    key <- (if truthy key then ret key
            else text <- text_of str_error data ;;
                 ret (VStr ("workbench-data-" ++ Z_to_string (hash text)))) ;;
    shown <- text_of str_error key ;;
    print_line console
      ("-> Calling REMOTE_WORKBENCH: Stored large data under key: " ++ shown) ;;
    ret (VDict [("successful", VBool true); ("workbench_key", key)])
  else if String.eqb action "retrieve" && in_strs key KNOWN_KEYS then
    ret (VDict
      [ ("successful", VBool true);
        ("data",
         VStr ("{... large, structured scientific data for " ++ str key ++ " ...}")) ])
  else ret workbench_failure.

Definition remote_bash_tool (script : string) : M value :=
  record (RemoteBash script) ;;
  ret (VDict
    [ ("successful", VBool true);
      ("stdout", VStr (json_dumps analysis_output));
      ("stderr", VStr "");
      ("execution_time_ms", VInt 450) ]).

(* ================================================================== *)
(** * The tool wrappers ([src/tools/custom_tools.py]) *)
(* ================================================================== *)

(** [json.loads(text)]. *)
Definition loads (text : string) : M value := lift (json_loads text).

(** What a wrapper is: it returns a text whatever happens inside, and
    leaves the record of the client calls it made. *)
Definition wrapper : Type := list call -> string * list call.

(** [try: body / except json.JSONDecodeError: / except Exception as e:]. *)
Definition try_except (body : M string) (on_json_error : string)
  (on_exception : exn -> string) : wrapper :=
  fun l => match body l with
           | (inr out, l') => (out, l')
           | (inl JSONDecodeError, l') => (on_json_error, l')
           | (inl e, l') => (on_exception e, l')
           end.

(** Tool 1. *)
Definition create_workflow_plan (query_json : string) : wrapper :=
  try_except
    (payload <- loads query_json ;;
     query <- lift (ResearchQuery_init payload) ;;
     arxiv <- getitem (VDict TOOL_SLUGS) "ARXIV_SEARCH" ;;
     pubchem <- getitem (VDict TOOL_SLUGS) "PUBCHEM_QUERY" ;;
     let primary_tools := [arxiv; pubchem] in
     let use_case :=
       "Generate a novel hypothesis and experimental protocol for the topic: "
       ++ topic query in
     plan_result <- create_plan use_case primary_tools ;;
     successful <- get plan_result "successful" VNone ;;
     if truthy successful then
       session_id <- getitem plan_result "session_id" ;;
       workflow_steps <- getitem plan_result "workflow_steps" ;;
       ret ("Plan successful. Session ID: " ++ str session_id
            ++ ". Workflow steps: " ++ str workflow_steps ++ ".")
     else
       reasoning <- get plan_result "reasoning" (VStr "Unknown Error") ;;
       ret ("Error generating plan: " ++ str reasoning))
    "CRITICAL TOOL ERROR: Input was not valid JSON. You must pass a JSON string conforming to ResearchQuery."
    (fun e =>
       "CRITICAL TOOL ERROR: Failed to call Composio CREATE_PLAN. Error: "
       ++ exn_str e).

(** One round of the loop of Tool 2: the request sent for [req]. *)
Definition prepare_request (req : value) : M value :=
  asked <- get req "tool_slug" VNone ;;
  known <- get_by_value TOOL_SLUGS asked ;;
  tool_slug <- (if truthy known then ret known else get req "tool_slug" VNone) ;;
  arguments <- get req "arguments" (VDict []) ;;
  ret (VDict [("tool_slug", tool_slug); ("arguments", arguments)]).

(** The comprehension of Tool 2: the truthy [workbench_key] of each result. *)
Fixpoint collect_keys (results : list value) : M (list value) :=
  match results with
  | [] => ret []
  | res :: rest =>
      k <- get res "workbench_key" VNone ;;
      if truthy k then
        k' <- get res "workbench_key" VNone ;;
        ks <- collect_keys rest ;;
        ret (k' :: ks)
      else collect_keys rest
  end.

(** Tool 2. *)
Definition execute_parallel_research (session_id requests_json : string)
  : wrapper :=
  try_except
    (requests_list <- loads requests_json ;;
     reqs <- iter requests_list ;;
     execution_requests <- map_m prepare_request reqs ;;
     multi_exec_result <- multi_execute_tool execution_requests session_id ;;
     successful <- get multi_exec_result "successful" VNone ;;
     if truthy successful then
       results <- getitem multi_exec_result "results" ;;
       items <- iter results ;;
       workbench_keys <- collect_keys items ;;
       results' <- getitem multi_exec_result "results" ;;
       ret ("Parallel execution successful. Raw data saved to Workbench. "
            ++ "Workbench Keys (JSON list): " ++ json_dumps (VList workbench_keys)
            ++ ". Summary: " ++ str results')
     else
       error <- get multi_exec_result "error" (VStr "Unknown Error") ;;
       ret ("Error during multi-execution: " ++ str error))
    "JSON Error: The 'requests_json' input was not valid JSON."
    (fun e =>
       "CRITICAL TOOL ERROR: Failed to call Composio MULTI_EXECUTE. Error: "
       ++ exn_str e).

(** Tool 3. *)
Definition run_data_analysis (workbench_keys_json : string) : wrapper :=
  try_except
    (workbench_keys <- loads workbench_keys_json ;;
     keys <- iter workbench_keys ;;
     for_each keys (fun key => remote_workbench "retrieve" key VNone ;; ret tt) ;;
     let python_script :=
       "analyze_data_from_workbench(keys=" ++ str workbench_keys ++ ")" in
     bash_result <- remote_bash_tool python_script ;;
     successful <- get bash_result "successful" VNone ;;
     if truthy successful then
       stdout <- getitem bash_result "stdout" ;;
       ret ("Analysis complete. Raw analysis output (stdout JSON): " ++ str stdout)
     else
       stderr <- get bash_result "stderr" (VStr "Unknown Error") ;;
       ret ("Error during Remote Bash execution: " ++ str stderr))
    "JSON Error: The 'workbench_keys_json' input was not valid JSON."
    (fun e =>
       "CRITICAL TOOL ERROR: Failed to run data analysis. Error: " ++ exn_str e).

(** Tool 4. *)
Definition publish_final_report (final_synthesis_json : string) : wrapper :=
  try_except
    (payload <- loads final_synthesis_json ;;
     synthesis_data <- lift (FinalSynthesis_init payload) ;;
     print_line console
       ("-> Calling Composio Notion Tool: Creating page '"
        ++ hypothesis synthesis_data ++ "'") ;;
     let report_url :=
       "https://notion.com/reports/"
       ++ Z_to_string (hash (hypothesis synthesis_data)) in
     ret ("Final Synthesis published successfully. Report URL: "
          ++ report_url ++ "."))
    "JSON Error: The 'final_synthesis_json' input was not valid JSON. Ensure all fields in FinalSynthesis are present."
    (fun e =>
       "CRITICAL TOOL ERROR: Failed to publish report. Error: " ++ exn_str e).

End Pipeline.

(* ================================================================== *)
(** * Reading results, and concrete runs *)
(* ================================================================== *)

(** What a wrapper returns, and the client calls it makes, from a fresh
    record. *)
Definition output (w : wrapper) : string := fst (w []).
Definition calls_of (w : wrapper) : list call := snd (w []).

(** What a computation returns or raises, from a fresh record. *)
Definition returned {A : Type} (m : M A) : result A := fst (m []).

(** The entry [k] of a result dict ([None] when there is none). *)
Definition field (k : string) (v : value) : value :=
  match v with
  | VDict d => match lookup k d with Some x => x | None => VNone end
  | _ => VNone
  end.

Definition items (v : value) : list value :=
  match v with
  | VList l => l
  | _ => []
  end.

(** The items of a dict (none for any other value). *)
Definition items_of (v : value) : list (string * value) :=
  match v with
  | VDict d => d
  | _ => []
  end.

(** The result slots of a batch. *)
Definition result_slots (batch : value) : list value :=
  items (field "results" batch).

(** The use case the Plan Wrapper asks a plan for. *)
Definition use_case_of (topic : string) : string :=
  "Generate a novel hypothesis and experimental protocol for the topic: "
  ++ topic.

(** The session id [create_plan] mints for the query's topic. *)
Definition plan_session_id (hash : string -> Z) (topic : string) : string :=
  "sess-" ++ Z_to_string (hash (use_case_of topic)).

(** The five workflow steps of the plan the wrapper asks for. *)
Definition plan_steps : list string :=
  [ "1. Literature Review (Parallel search using arxiv_search_tool_slug and pubchem_query_tool_slug)";
    "2. Store raw results in Remote Workbench.";
    "3. Execute Python Code (Remote Bash) for data cleaning and initial analysis.";
    "4. Draft Final Hypothesis and Protocol.";
    "5. Publish report to Notion/Docs." ].

(** The key [remote_workbench] makes up for a store with no key. *)
Definition generated_key (hash : string -> Z) (data : value) : string :=
  "workbench-data-" ++ Z_to_string (hash (str data)).

(** What a retrieve of one of the known keys answers. *)
Definition retrieved (key : value) : value :=
  VDict [ ("successful", VBool true);
          ("data",
           VStr ("{... large, structured scientific data for " ++ str key
                 ++ " ...}")) ].

(** Whether [str(v)] gives a text rather than raising. *)
Definition has_text (str_error : value -> option exn) (v : value) : bool :=
  match v with
  | VStr _ => true
  | _ => match str_error v with
         | Some _ => false
         | None => true
         end
  end.

(** The client call a retrieve of [key] is. *)
Definition retrieve_call (key : value) : call :=
  RemoteWorkbench "retrieve" key VNone.

(** ** Stand-ins for the interpreter, to run the code on concrete inputs *)

(** A [str] hash: a polynomial hash, signed like CPython's. *)
Fixpoint sample_hash_from (h : Z) (s : string) : Z :=
  match s with
  | EmptyString => h
  | String c rest =>
      sample_hash_from ((h * 31 + Z.of_N (N_of_ascii c)) mod 2 ^ 61) rest
  end.

Definition sample_hash (s : string) : Z := sample_hash_from 7 s - 2 ^ 60.

(** The text made of [n] times the character [c]. *)
Fixpoint repeat_char (c : ascii) (n : nat) : string :=
  match n with
  | O => EmptyString
  | S n' => String c (repeat_char c n')
  end.

Fixpoint all_digits (s : string) : bool :=
  match s with
  | EmptyString => true
  | String c rest =>
      ((48 <=? N_of_ascii c) && (N_of_ascii c <=? 57))%N && all_digits rest
  end.

(** An opening bracket followed by more than 4300 digits and nothing
    else: a text on which [json.loads] raises [ValueError], from the
    conversion of the integer literal, not [JSONDecodeError]. *)
Definition oversized_literal (text : string) : bool :=
  match text with
  | String "[" rest => all_digits rest && (4300 <? String.length rest)%nat
  | _ => false
  end.

(** The texts of the [ValueError] of an integer beyond the digit limit:
    from [str], and from the conversion of a literal of [digits] digits. *)
Definition digit_limit_message : string :=
  "Exceeds the limit (4300 digits) for integer string conversion; use sys.set_int_max_str_digits() to increase the limit".

Definition literal_limit_message (digits : nat) : string :=
  "Exceeds the limit (4300 digits) for integer string conversion: value has "
  ++ Z_to_string (Z.of_nat digits)
  ++ " digits; use sys.set_int_max_str_digits() to increase the limit".

(** A decoder that inverts [json_dumps] on the given documents, raises
    [ValueError] on an oversized literal and [JSONDecodeError] on every
    other text. *)
Definition sample_loads (documents : list value) (text : string)
  : result value :=
  match find (fun v => String.eqb (json_dumps v) text) documents with
  | Some v => inr v
  | None =>
      if oversized_literal text
      then inl (ValueError (literal_limit_message (String.length text - 1)%nat))
      else inl JSONDecodeError
  end.

(** A console that encodes ASCII only, and one that encodes every code
    point (UTF-8). *)
Definition ascii_console : ascii -> bool := fun _ => false.
Definition utf8_console : ascii -> bool := fun _ => true.

(** The integers of more than 4300 digits have no text: converting one
    to its decimal text raises [ValueError]. *)
Fixpoint has_long_int (v : value) : bool :=
  match v with
  | VInt n => (4300 <? String.length (Z_to_string (Z.abs n)))%nat
  | VList l => existsb has_long_int l
  | VDict d =>
      existsb (fun kv => match kv with (_, x) => has_long_int x end) d
  | _ => false
  end.

Definition sample_str_error (v : value) : option exn :=
  if has_long_int v then Some (ValueError digit_limit_message) else None.

(** The first code point of a text outside ASCII, with its position. *)
Fixpoint first_outside_ascii (s : string) (position : nat)
  : option (nat * ascii) :=
  match s with
  | EmptyString => None
  | String c rest =>
      if ascii_char c then first_outside_ascii rest (S position)
      else Some (position, c)
  end.

(** The text of the [UnicodeEncodeError] of an ASCII console. *)
Definition ascii_codec_message (text : string) : string :=
  match first_outside_ascii text 0 with
  | Some (position, c) =>
      "'ascii' codec can't encode character '"
      ++ String backslash ("x" ++ hex2 c) ++ "' in position "
      ++ Z_to_string (Z.of_nat position) ++ ": ordinal not in range(128)"
  | None => ""
  end.

Definition sample_exn_str (e : exn) : string :=
  match e with
  | JSONDecodeError => "Expecting value"
  | TypeError detail => detail
  | AttributeError detail => detail
  | KeyError key => repr_str key
  | IndexError => "list index out of range"
  | ValidationError model errors =>
      Z_to_string (Z.of_nat (List.length errors)) ++ " validation errors for " ++ model
  | ValueError detail => detail
  | RecursionError => "maximum recursion depth exceeded"
  | UnicodeEncodeError text => ascii_codec_message text
  end.

(** The documents of the concrete runs below. *)
Definition query_graphene : value :=
  VDict [ ("topic", VStr "graphene quantum dots for drug delivery");
          ("target_output", VStr "Draft full experimental protocol");
          ("keywords", VList [VStr "graphene"; VStr "delivery"]) ].

Definition query_graphene_other : value :=
  VDict [ ("topic", VStr "graphene quantum dots for drug delivery");
          ("target_output", VStr "Prior art matrix");
          ("keywords", VList [VStr "nanomedicine"]) ].

Definition query_without_keywords : value :=
  VDict [ ("topic", VStr "graphene quantum dots for drug delivery");
          ("target_output", VStr "Draft full experimental protocol");
          ("keywords", VList []) ].

Definition synthesis_items : list (string * value) :=
  [ ("hypothesis", VStr "Quantum dots improve delivery.");
    ("protocol_summary", VStr "Three steps.");
    ("analysis_findings", VStr "Three compounds passed.");
    ("prior_art_reference_links", VList []);
    ("next_steps", VStr "In-vitro testing.") ].

Definition synthesis_complete : value := VDict synthesis_items.

Definition synthesis_with_null_hypothesis : value :=
  VDict (("hypothesis", VNone) :: tl synthesis_items).

Definition synthesis_without_next_steps : value :=
  VDict (removelast synthesis_items).

Definition two_keys : value :=
  VList [VStr "ARXIV-RAW-DATA-KEY-123"; VStr "no-such-key"].

Definition sample_documents : list value :=
  [ query_graphene; query_graphene_other; query_without_keywords;
    synthesis_complete; synthesis_with_null_hypothesis;
    synthesis_without_next_steps; two_keys ].

Definition sample_json_loads : string -> result value :=
  sample_loads sample_documents.

(** The two requests of the pipeline's research stage, PubChem first. *)
Definition pubchem_then_arxiv : list value :=
  [ VDict [ ("tool_slug", VStr "pubchem_query_tool_slug");
            ("arguments", VDict [("compound_type", VStr "delivery vehicle")]) ];
    VDict [ ("tool_slug", VStr "arxiv_search_tool_slug");
            ("arguments", VDict [("max_results", VInt 5)]) ] ].

(** ** Tactics *)

(** Runs a wrapper's body past a decoding that succeeded ([H]). *)
Ltac after_loads H :=
  unfold loads, lift; unfold bind at 1; rewrite H; cbv beta iota.

(** Runs the Publish Wrapper up to the validation of the decoded payload. *)
Ltac publish_after_loads H :=
  unfold publish_final_report, try_except; after_loads H;
  unfold bind at 1.

(* ================================================================== *)
(** * The client's construction and what the tasks prepare *)
(* ================================================================== *)



(** The dict of a validated query: what [query.json()] serialises in
    [ScientistTasks.plan_workflow_task]. *)
Definition ResearchQuery_dict (q : ResearchQuery) : value :=
  VDict [ ("topic", VStr (topic q));
          ("target_output", VStr (target_output q));
          ("keywords", VList (map VStr (keywords q))) ].

(** [req.dict()] for a request. *)
Definition ToolExecutionRequest_dict (r : ToolExecutionRequest) : value :=
  VDict [ ("tool_slug", VStr (tool_slug r));
          ("arguments", VDict (arguments r)) ].

(** [example_requests] of [ScientistTasks.parallel_research_task]. *)
Definition example_requests (query : ResearchQuery)
  : list ToolExecutionRequest :=
  [ {| tool_slug := "ARXIV_SEARCH";
       arguments := [ ("query", VStr (topic query ++ " prior art"));
                      ("max_results", VInt 5) ] |};
    {| tool_slug := "PUBCHEM_QUERY";
       arguments := [ ("keywords", VList (map VStr (keywords query)));
                      ("compound_type", VStr "delivery vehicle") ] |} ].

(** ** Vocabulary of the statements on the wrappers *)

(** Whether an exception is the one the wrappers' first handler takes. *)
Definition json_error (e : exn) : bool :=
  match e with
  | JSONDecodeError => true
  | _ => false
  end.

(** A computation that calls the client for nothing and cannot raise
    [JSONDecodeError]. *)
Definition quiet {A : Type} (m : M A) : Prop :=
  forall l,
    (exists a, m l = (inr a, l))
    \/ (exists e, m l = (inl e, l) /\ json_error e = false).

(** The items a loop over [v] visits, when [v] can be looped over. *)
Definition visited (v : value) : option (list value) :=
  match returned (iter v) with
  | inr xs => Some xs
  | inl _ => None
  end.

(** A request the research wrapper can prepare: a dict whose [tool_slug],
    if any, can be hashed. *)
Definition preparable (req : value) : bool :=
  match req with
  | VDict _ => hashable (field "tool_slug" req)
  | _ => false
  end.

(** A payload the research wrapper sends a batch for. *)
Definition sendable (payload : value) : bool :=
  match visited payload with
  | Some reqs => forallb preparable reqs
  | None => false
  end.

(** The slug the research wrapper sends for the slug it was asked. *)
Definition resolved (asked : value) : value :=
  match asked with
  | VStr s => match lookup s TOOL_SLUGS with Some x => x | None => asked end
  | _ => asked
  end.

(** The request the research wrapper sends for the request [req]. *)
Definition prepared (req : value) : value :=
  VDict [ ("tool_slug", resolved (field "tool_slug" req));
          ("arguments", match lookup "arguments" (items_of req) with
                        | Some a => a
                        | None => VDict []
                        end) ].

(** The text the research wrapper returns for a batch it could send: the
    keys and the result slots of the batch [multi_execute_tool] answers
    with (as computed here for no request and an empty session id). *)
Definition research_summary : string :=
  match returned (multi_execute_tool [] "") with
  | inr batch =>
      "Parallel execution successful. Raw data saved to Workbench. "
      ++ "Workbench Keys (JSON list): "
      ++ json_dumps (VList (map (field "workbench_key") (result_slots batch)))
      ++ ". Summary: " ++ repr (VList (result_slots batch))
  | inl _ => ""
  end.

(** The two texts a wrapper's error starts with. *)
Definition error_text (out : string) : bool :=
  String.prefix "JSON Error: " out || String.prefix "CRITICAL TOOL ERROR: " out.

(** More documents for the concrete runs. *)
Definition request_list : value :=
  VList [ VDict [ ("tool_slug", VStr "ARXIV_SEARCH");
                  ("arguments", VDict [("max_results", VInt 5)]) ];
          VDict [ ("tool_slug", VStr "my_own_tool") ] ].

Definition request_list_with_text : value :=
  VList [ VDict [("tool_slug", VStr "ARXIV_SEARCH")]; VStr "PUBCHEM_QUERY" ].

Definition known_keys_list : value := VList (map VStr KNOWN_KEYS).

Definition query_as_list : value := VList [VStr "graphene"].

Definition graphene_query : ResearchQuery :=
  {| topic := "graphene quantum dots for drug delivery";
     target_output := "Draft full experimental protocol";
     keywords := ["graphene"; "delivery"] |}.

Definition synthesis_same_hypothesis : value :=
  VDict [ ("hypothesis", VStr "Quantum dots improve delivery.");
          ("protocol_summary", VStr "Five steps.");
          ("analysis_findings", VStr "No compound passed.");
          ("prior_art_reference_links", VList [VStr "ARXIV-RAW-DATA-KEY-123"]);
          ("next_steps", VStr "None.") ].

(** A topic and a hypothesis with a letter outside ASCII (U+00E9). *)
Definition cafe : string := "caf" ++ String "233" "".

Definition query_cafe : value :=
  VDict [ ("topic", VStr cafe);
          ("target_output", VStr "Draft full experimental protocol");
          ("keywords", VList [VStr "coffee"]) ].

Definition query_other_topic : value :=
  VDict [ ("topic", VStr "carbon nanotubes");
          ("target_output", VStr "Draft full experimental protocol");
          ("keywords", VList [VStr "graphene"; VStr "delivery"]) ].

Definition synthesis_cafe : value :=
  VDict [ ("hypothesis", VStr cafe);
          ("protocol_summary", VStr "Three steps.");
          ("analysis_findings", VStr "Three compounds passed.");
          ("prior_art_reference_links", VList []);
          ("next_steps", VStr "In-vitro testing.") ].

Definition synthesis_other_hypothesis : value :=
  VDict [ ("hypothesis", VStr "Nanotubes improve delivery.");
          ("protocol_summary", VStr "Three steps.");
          ("analysis_findings", VStr "Three compounds passed.");
          ("prior_art_reference_links", VList []);
          ("next_steps", VStr "In-vitro testing.") ].

(** An opening bracket and an integer literal of 5000 digits. *)
Definition oversized_text : string := String "[" (repeat_char "1" 5000).

Definition more_documents : list value :=
  [ request_list; request_list_with_text; known_keys_list; query_as_list;
    VInt 7; VStr "ab"; synthesis_same_hypothesis;
    VList (map ToolExecutionRequest_dict (example_requests graphene_query));
    query_cafe; query_other_topic; synthesis_cafe;
    synthesis_other_hypothesis ].

Definition more_json_loads : string -> result value :=
  sample_loads (sample_documents ++ more_documents)%list.

(* ================================================================== *)
(** * Lemmas on texts *)
(* ================================================================== *)

Lemma prefix_app (a b : string) : String.prefix a (a ++ b) = true.
Proof.
  induction a as [|c a IH]; simpl.
  - now destruct b.
  - destruct (ascii_dec c c) as [_|ne]; [exact IH | now elim ne].
Qed.





Lemma append_inj_l (a x y : string) : a ++ x = a ++ y -> x = y.
Proof.
  induction a as [|c a IH]; simpl; intros H.
  - exact H.
  - injection H as H. auto.
Qed.

Lemma Z_to_string_inj (a b : Z) : Z_to_string a = Z_to_string b -> a = b.
Proof.
  unfold Z_to_string. intros H.
  assert (nonnil : forall z, Z.to_int z <> Decimal.Pos Decimal.Nil
                          /\ Z.to_int z <> Decimal.Neg Decimal.Nil).
  { intros [|p|p]; simpl; split; try discriminate;
      intros E; injection E as E; now apply Unsigned.to_uint_nonnil in E. }
  apply (f_equal NilZero.int_of_string) in H.
  destruct (nonnil a) as [a1 a2], (nonnil b) as [b1 b2].
  rewrite !NilZero.isi in H by assumption.
  injection H as H. now apply DecimalZ.to_int_inj.
Qed.

Lemma Z_to_string_nonempty (z : Z) : String.eqb (Z_to_string z) "" = false.
Proof.
  unfold Z_to_string. destruct (Z.to_int z) as [[]|[]]; reflexivity.
Qed.

(** ** What a console can print *)

Lemma encodable_app (console : ascii -> bool) (a b : string) :
  encodable console (a ++ b) = encodable console a && encodable console b.
Proof.
  induction a as [|c a IH]; simpl; [reflexivity|].
  now rewrite IH, andb_assoc.
Qed.

Lemma encodable_uint (console : ascii -> bool) (u : Decimal.uint) :
  encodable console (NilEmpty.string_of_uint u) = true.
Proof. induction u; simpl; auto. Qed.

(** The decimal text of an integer is ASCII. *)
Lemma encodable_Z_to_string (console : ascii -> bool) (z : Z) :
  encodable console (Z_to_string z) = true.
Proof.
  unfold Z_to_string.
  destruct (Z.to_int z) as [u|u]; simpl;
    destruct u; simpl; auto using encodable_uint.
Qed.

(** A text and its value have a text. *)
Lemma text_of_text (str_error : value -> option exn) (v : value)
  (l : list call) :
  has_text str_error v = true -> text_of str_error v l = (inr (str v), l).
Proof.
  unfold has_text, text_of.
  destruct v; try reflexivity; destruct (str_error _); try discriminate;
    reflexivity.
Qed.

Lemma text_of_no_text (str_error : value -> option exn) (v : value)
  (l : list call) :
  has_text str_error v = false ->
  exists e, str_error v = Some e /\ text_of str_error v l = (inl e, l).
Proof.
  unfold has_text, text_of.
  destruct v; try discriminate; destruct (str_error _) as [e|];
    try discriminate; intros _; exists e; split; reflexivity.
Qed.

Lemma print_line_ok (console : ascii -> bool) (line : string)
  (l : list call) :
  encodable console line = true -> print_line console line l = (inr tt, l).
Proof. unfold print_line. now intros ->. Qed.

Lemma print_line_fails (console : ascii -> bool) (line : string)
  (l : list call) :
  encodable console line = false ->
  print_line console line l = (inl (UnicodeEncodeError line), l).
Proof. unfold print_line. now intros ->. Qed.

(** A few values as Python prints them. *)
Example repr_of_a_list :
  repr (VList [VStr "a"; VInt (-3); VNone; VBool true; VDict [("k", VFloat "1.5")]])
  = "['a', -3, None, True, {'k': 1.5}]".
Proof. reflexivity. Qed.

Example repr_picks_the_other_quote :
  repr (VStr "it's") = String dquote ("it's" ++ String dquote "").
Proof. reflexivity. Qed.

Example stdout_names_the_compound_count :
  contains "final_clean_compounds" (json_dumps analysis_output) = true
  /\ String.prefix "{" (json_dumps analysis_output) = true.
Proof. split; reflexivity. Qed.

(* ================================================================== *)
(** * The tool router client *)
(* ================================================================== *)

Section ClientProperties.

Variable hash : string -> Z.
Variable console : ascii -> bool.
Variable str_error : value -> option exn.

Lemma generated_key_unknown (x : string) :
  in_strs (VStr ("workbench-data-" ++ x)) KNOWN_KEYS = false.
Proof. reflexivity. Qed.

(** The line a store prints for a generated key is ASCII. *)
Lemma generated_key_printable (z : Z) :
  encodable console
    ("-> Calling REMOTE_WORKBENCH: Stored large data under key: "
     ++ "workbench-data-" ++ Z_to_string z)
  = true.
Proof. rewrite !encodable_app, encodable_Z_to_string. reflexivity. Qed.

(** C1 (as the code has it): whatever the requests and the session id,
    [multi_execute_tool] returns without raising a batch of exactly two
    result slots, the arXiv one then the PubChem one, with the session id
    it was given; so the number of slots is the number of requests only
    when there are two requests. *)
Theorem multi_execute_two_fixed_slots (execution_requests : list value)
  (session_id : string) (l : list call) :
  exists batch,
    multi_execute_tool execution_requests session_id l
    = (inr batch, (l ++ [MultiExecute execution_requests session_id])%list)
    /\ field "successful" batch = VBool true
    /\ field "session_id" batch = VStr session_id
    /\ List.length (result_slots batch) = 2%nat
    /\ map (field "tool_slug") (result_slots batch)
       = [VStr "arxiv_search_tool_slug"; VStr "pubchem_query_tool_slug"]
    /\ map (field "workbench_key") (result_slots batch)
       = [VStr "ARXIV-RAW-DATA-KEY-123"; VStr "PUBCHEM-RAW-DATA-KEY-456"]
    /\ (List.length (result_slots batch) = List.length execution_requests
        <-> List.length execution_requests = 2%nat).
Proof.
  eexists. split; [reflexivity|].
  cbn. repeat split; auto.
Qed.

(** The key a store without a supplied key answers with, for data that
    have a text. *)
Lemma store_generates_key (data : value) (l : list call) :
  has_text str_error data = true ->
  remote_workbench hash console str_error "store" VNone data l
  = (inr (VDict [ ("successful", VBool true);
                  ("workbench_key", VStr (generated_key hash data)) ]),
     (l ++ [RemoteWorkbench "store" VNone data])%list).
Proof.
  intros Htext. unfold remote_workbench, generated_key.
  unfold bind at 1, record. cbn [String.eqb Ascii.eqb Bool.eqb truthy].
  unfold bind at 1. unfold bind at 1. rewrite (text_of_text _ _ _ Htext).
  unfold ret at 1. unfold bind at 1. cbn [text_of]. unfold ret at 1.
  unfold bind at 1. rewrite print_line_ok by apply generated_key_printable.
  reflexivity.
Qed.

Lemma retrieve_answer (key : value) (l : list call) :
  remote_workbench hash console str_error "retrieve" key VNone l
  = (inr (if in_strs key KNOWN_KEYS then retrieved key else workbench_failure),
     (l ++ [retrieve_call key])%list).
Proof.
  unfold remote_workbench, bind, record, retrieve_call, retrieved. cbn.
  destruct (in_strs key KNOWN_KEYS); reflexivity.
Qed.

(** C2 (as the code has it): a store, with no supplied key, of [data]
    that have a text answers with the key
    [workbench-data-<hash(str(data))>] and keeps nothing; a retrieve
    answers for the two built-in keys only, with a placeholder text that
    names the key, and for every other key, the one the store has just
    answered with included, returns the failure dict without raising. *)
Theorem workbench_store_keeps_nothing (data key : value) (l : list call) :
  has_text str_error data = true ->
  remote_workbench hash console str_error "store" VNone data l
  = (inr (VDict
            [ ("successful", VBool true);
              ("workbench_key",
               VStr ("workbench-data-" ++ Z_to_string (hash (str data)))) ]),
     (l ++ [RemoteWorkbench "store" VNone data])%list)
  /\ (exists l',
        (stored <- remote_workbench hash console str_error "store" VNone data ;;
         k <- getitem stored "workbench_key" ;;
         remote_workbench hash console str_error "retrieve" k VNone) l
        = (inr workbench_failure, l')
        /\ l' = (l ++ [ RemoteWorkbench "store" VNone data;
                        retrieve_call (VStr (generated_key hash data)) ])%list)
  /\ fst (remote_workbench hash console str_error "retrieve" key VNone l)
     = inr (if in_strs key KNOWN_KEYS then retrieved key else workbench_failure)
  /\ field "successful" workbench_failure = VBool false.
Proof.
  intros Htext.
  split; [exact (store_generates_key data l Htext)|].
  split; [|split; [now rewrite retrieve_answer | reflexivity]].
  eexists. split.
  - unfold bind at 1. rewrite (store_generates_key data l Htext).
    unfold bind at 1. cbn [getitem lookup String.eqb Ascii.eqb Bool.eqb ret].
    rewrite retrieve_answer.
    unfold generated_key. rewrite generated_key_unknown. reflexivity.
  - now rewrite <- app_assoc.
Qed.

(** C7 (as the code has it): two stores without a supplied key, in one
    session, of values that have a text answer with the keys
    [workbench-data-<hash(str(value))>]; these are equal exactly when the
    hashes of the texts of the two values are, so two values with the same
    text always get the same key. *)
Theorem workbench_keys_follow_the_hash (data1 data2 : value) (l : list call) :
  has_text str_error data1 = true ->
  has_text str_error data2 = true ->
  fst ((r1 <- remote_workbench hash console str_error "store" VNone data1 ;;
        r2 <- remote_workbench hash console str_error "store" VNone data2 ;;
        ret (field "workbench_key" r1, field "workbench_key" r2)) l)
  = inr (VStr ("workbench-data-" ++ Z_to_string (hash (str data1))),
         VStr ("workbench-data-" ++ Z_to_string (hash (str data2))))
  /\ ("workbench-data-" ++ Z_to_string (hash (str data1))
      = "workbench-data-" ++ Z_to_string (hash (str data2))
      <-> hash (str data1) = hash (str data2))
  /\ (str data1 = str data2 ->
      "workbench-data-" ++ Z_to_string (hash (str data1))
      = "workbench-data-" ++ Z_to_string (hash (str data2))).
Proof.
  intros H1 H2. split.
  - unfold bind at 1. rewrite (store_generates_key data1 l H1).
    unfold bind at 1. rewrite (store_generates_key data2 _ H2).
    reflexivity.
  - split; [split|]; intros H.
    + now apply append_inj_l, Z_to_string_inj in H.
    + now rewrite H.
    + now rewrite H.
Qed.

(** C9: an action that is neither [store] nor [retrieve], and a retrieve
    of a key that is not one of the keys data is held for, make
    [remote_workbench] return (not raise) the failure dict, whose
    [successful] is [False] and which carries an error text. *)
Theorem workbench_structured_failure (action : string) (key data : value)
  (l : list call) :
  (action <> "store" /\ action <> "retrieve")
  \/ (action = "retrieve" /\ in_strs key KNOWN_KEYS = false) ->
  remote_workbench hash console str_error action key data l
  = (inr workbench_failure, (l ++ [RemoteWorkbench action key data])%list)
  /\ field "successful" workbench_failure = VBool false
  /\ field "error" workbench_failure = VStr "Invalid action or key.".
Proof.
  intros H. split; [|split; reflexivity].
  unfold remote_workbench, bind, record.
  destruct H as [[ns nr]|[-> unknown]].
  - apply String.eqb_neq in ns, nr. now rewrite ns, nr.
  - rewrite unknown. reflexivity.
Qed.

End ClientProperties.

(* ================================================================== *)
(** * The schema layer *)
(* ================================================================== *)

Lemma str_items_of_strs (f : string) (ss : list string) :
  str_items f (map VStr ss) = inr ss.
Proof.
  induction ss as [|s ss IH]; simpl; [reflexivity | now rewrite IH].
Qed.

(** A mapping whose three fields are present with the declared types
    validates, whatever the length of [keywords]. *)
Lemma ResearchQuery_init_valid (d : list (string * value))
  (t o : string) (ks : list string) :
  lookup "topic" d = Some (VStr t) ->
  lookup "target_output" d = Some (VStr o) ->
  lookup "keywords" d = Some (VList (map VStr ks)) ->
  ResearchQuery_init (VDict d)
  = inr {| topic := t; target_output := o; keywords := ks |}.
Proof.
  intros Ht Ho Hk. unfold ResearchQuery_init, field_str, field_str_list.
  now rewrite Ht, Ho, Hk, str_items_of_strs.
Qed.

Lemma FinalSynthesis_init_valid (d : list (string * value))
  (h p a n : string) (links : list string) :
  lookup "hypothesis" d = Some (VStr h) ->
  lookup "protocol_summary" d = Some (VStr p) ->
  lookup "analysis_findings" d = Some (VStr a) ->
  lookup "prior_art_reference_links" d = Some (VList (map VStr links)) ->
  lookup "next_steps" d = Some (VStr n) ->
  FinalSynthesis_init (VDict d)
  = inr {| hypothesis := h; protocol_summary := p; analysis_findings := a;
           prior_art_reference_links := links; next_steps := n |}.
Proof.
  intros Hh Hp Ha Hl Hn.
  unfold FinalSynthesis_init, field_str, field_str_list.
  now rewrite Hh, Hp, Ha, Hl, Hn, str_items_of_strs.
Qed.

Lemma field_str_missing (f : string) (d : list (string * value)) :
  lookup f d = None -> field_str f d = inl [(f, "missing")].
Proof. unfold field_str. now intros ->. Qed.

Lemma field_str_list_missing (f : string) (d : list (string * value)) :
  lookup f d = None -> field_str_list f d = inl [(f, "missing")].
Proof. unfold field_str_list. now intros ->. Qed.

(** A mapping that lacks one of the fields of [FinalSynthesis] is refused,
    and the error names the field as missing. *)
Lemma FinalSynthesis_init_missing (d : list (string * value)) (f : string) :
  In f FinalSynthesis_fields ->
  lookup f d = None ->
  exists errors,
    FinalSynthesis_init (VDict d) = inl (ValidationError "FinalSynthesis" errors)
    /\ In (f, "missing") errors.
Proof.
  intros Hf Hd. unfold FinalSynthesis_init.
  simpl in Hf.
  destruct Hf as [<-|[<-|[<-|[<-|[<-|[]]]]]];
    first [ rewrite (field_str_missing _ _ Hd)
          | rewrite (field_str_list_missing _ _ Hd) ];
    repeat match goal with
           | |- context [match ?x with inl _ => _ | inr _ => _ end] =>
               destruct x
           end;
    eexists; (split; [reflexivity|]);
    cbn [errors_of]; rewrite ?in_app_iff; simpl; auto 10.
Qed.

(* ================================================================== *)
(** * The tool wrappers *)
(* ================================================================== *)

Section WrapperProperties.

Variable hash : string -> Z.
Variable console : ascii -> bool.
Variable str_error : value -> option exn.
Variable json_loads : string -> result value.
Variable exn_str : exn -> string.

(** The line [create_plan] prints can be encoded exactly when the topic
    can, and the line of the Publish Wrapper exactly when the hypothesis
    can. *)
Lemma plan_line_encodable (topic : string) :
  encodable console ("-> Calling CREATE_PLAN for: " ++ use_case_of topic)
  = encodable console topic.
Proof. unfold use_case_of. now rewrite !encodable_app. Qed.

Lemma publish_line_encodable (h : string) :
  encodable console
    ("-> Calling Composio Notion Tool: Creating page '" ++ h ++ "'")
  = encodable console h.
Proof. rewrite !encodable_app. cbn. now rewrite andb_true_r. Qed.

(** The text the Plan Wrapper returns for a query on a topic the console
    can print. *)
Lemma plan_wrapper_valid (query_json : string) (payload : value)
  (query : ResearchQuery) (l : list call) :
  json_loads query_json = inr payload ->
  ResearchQuery_init payload = inr query ->
  encodable console (topic query) = true ->
  create_workflow_plan hash console str_error json_loads exn_str query_json l
  = ("Plan successful. Session ID: "
     ++ plan_session_id hash (topic query)
     ++ ". Workflow steps: " ++ repr (VList (map VStr plan_steps)) ++ ".",
     (l ++ [CreatePlan (use_case_of (topic query))
                       [VStr "arxiv_search_tool_slug";
                        VStr "pubchem_query_tool_slug"]])%list).
Proof.
  intros Hloads Hvalid Hprint.
  unfold create_workflow_plan, try_except. after_loads Hloads.
  unfold bind at 1. rewrite Hvalid. cbv beta iota.
  unfold bind at 1. cbn [getitem lookup TOOL_SLUGS String.eqb Ascii.eqb Bool.eqb].
  unfold ret at 1. unfold bind at 1.
  cbn [getitem lookup TOOL_SLUGS String.eqb Ascii.eqb Bool.eqb].
  unfold ret at 1. unfold bind at 1. unfold create_plan.
  unfold bind at 1, record. unfold bind at 1.
  fold (use_case_of (topic query)).
  rewrite print_line_ok by now rewrite plan_line_encodable.
  reflexivity.
Qed.

(** The same for a topic the console cannot print: [create_plan] is
    entered and its [print] raises. *)
Lemma plan_wrapper_unprintable (query_json : string) (payload : value)
  (query : ResearchQuery) (l : list call) :
  json_loads query_json = inr payload ->
  ResearchQuery_init payload = inr query ->
  encodable console (topic query) = false ->
  create_workflow_plan hash console str_error json_loads exn_str query_json l
  = ("CRITICAL TOOL ERROR: Failed to call Composio CREATE_PLAN. Error: "
     ++ exn_str (UnicodeEncodeError
                   ("-> Calling CREATE_PLAN for: "
                    ++ use_case_of (topic query))),
     (l ++ [CreatePlan (use_case_of (topic query))
                       [VStr "arxiv_search_tool_slug";
                        VStr "pubchem_query_tool_slug"]])%list).
Proof.
  intros Hloads Hvalid Hprint.
  unfold create_workflow_plan, try_except. after_loads Hloads.
  unfold bind at 1. rewrite Hvalid. cbv beta iota.
  unfold bind at 1. cbn [getitem lookup TOOL_SLUGS String.eqb Ascii.eqb Bool.eqb].
  unfold ret at 1. unfold bind at 1.
  cbn [getitem lookup TOOL_SLUGS String.eqb Ascii.eqb Bool.eqb].
  unfold ret at 1. unfold bind at 1. unfold create_plan.
  unfold bind at 1, record. unfold bind at 1.
  fold (use_case_of (topic query)).
  rewrite print_line_fails by now rewrite plan_line_encodable.
  reflexivity.
Qed.

(** C3 (as the code has it): on a text [json.loads] rejects, none of the
    four wrappers raises or calls the client.  When the exception is
    [json.JSONDecodeError], each returns an error message that contains
    the word JSON; when it is another one (the [ValueError] of an integer
    literal beyond the digit limit, a [RecursionError]), each returns its
    own [CRITICAL TOOL ERROR] text followed by the text of the exception,
    where nothing guarantees the word JSON. *)
Theorem wrappers_report_malformed_json (text session_id : string) (e : exn)
  (l : list call) :
  json_loads text = inl e ->
  if json_error e then
    (exists msg,
       create_workflow_plan hash console str_error json_loads exn_str text l
       = (msg, l)
       /\ contains "JSON" msg = true)
    /\ (exists msg,
          execute_parallel_research json_loads exn_str session_id text l
          = (msg, l)
          /\ contains "JSON" msg = true)
    /\ (exists msg,
          run_data_analysis hash console str_error json_loads exn_str text l
          = (msg, l)
          /\ contains "JSON" msg = true)
    /\ (exists msg,
          publish_final_report hash console json_loads exn_str text l
          = (msg, l)
          /\ contains "JSON" msg = true)
  else
    create_workflow_plan hash console str_error json_loads exn_str text l
    = ("CRITICAL TOOL ERROR: Failed to call Composio CREATE_PLAN. Error: "
       ++ exn_str e, l)
    /\ execute_parallel_research json_loads exn_str session_id text l
       = ("CRITICAL TOOL ERROR: Failed to call Composio MULTI_EXECUTE. Error: "
          ++ exn_str e, l)
    /\ run_data_analysis hash console str_error json_loads exn_str text l
       = ("CRITICAL TOOL ERROR: Failed to run data analysis. Error: "
          ++ exn_str e, l)
    /\ publish_final_report hash console json_loads exn_str text l
       = ("CRITICAL TOOL ERROR: Failed to publish report. Error: "
          ++ exn_str e, l).
Proof.
  intros Hbad.
  unfold create_workflow_plan, execute_parallel_research, run_data_analysis,
    publish_final_report, try_except, loads, lift, bind.
  rewrite Hbad.
  destruct e; cbn [json_error];
    repeat split; try (eexists; (split; [reflexivity|]); reflexivity).
Qed.


(** C10: two valid queries on the same topic get the same text from the
    Plan Wrapper, and the same plan from the client, whatever their other
    two fields. *)
Theorem plan_depends_on_topic_only (json1 json2 : string)
  (payload1 payload2 : value) (query1 query2 : ResearchQuery)
  (l : list call) :
  json_loads json1 = inr payload1 ->
  json_loads json2 = inr payload2 ->
  ResearchQuery_init payload1 = inr query1 ->
  ResearchQuery_init payload2 = inr query2 ->
  topic query1 = topic query2 ->
  create_workflow_plan hash console str_error json_loads exn_str json1 l
  = create_workflow_plan hash console str_error json_loads exn_str json2 l
  /\ create_plan hash console str_error (use_case_of (topic query1))
       [VStr "arxiv_search_tool_slug"; VStr "pubchem_query_tool_slug"] l
     = create_plan hash console str_error (use_case_of (topic query2))
         [VStr "arxiv_search_tool_slug"; VStr "pubchem_query_tool_slug"] l.
Proof.
  intros L1 L2 V1 V2 Etopic. split; [|now rewrite Etopic].
  destruct (encodable console (topic query1)) eqn:Hprint.
  - rewrite (plan_wrapper_valid _ _ _ l L1 V1 Hprint).
    rewrite Etopic in Hprint.
    rewrite (plan_wrapper_valid _ _ _ l L2 V2 Hprint).
    now rewrite Etopic.
  - rewrite (plan_wrapper_unprintable _ _ _ l L1 V1 Hprint).
    rewrite Etopic in Hprint.
    rewrite (plan_wrapper_unprintable _ _ _ l L2 V2 Hprint).
    now rewrite Etopic.
Qed.

(** C4 (as the code has it): a query whose keywords are the empty list
    validates, and the Plan Wrapper goes on to ask the client for the
    plan; it returns the plan's text when the console can print the
    topic, and the text of the failed [print] otherwise. *)
Theorem empty_keywords_are_accepted (query_json t o : string)
  (d : list (string * value)) (l : list call) :
  json_loads query_json = inr (VDict d) ->
  lookup "topic" d = Some (VStr t) ->
  lookup "target_output" d = Some (VStr o) ->
  lookup "keywords" d = Some (VList []) ->
  ResearchQuery_init (VDict d)
  = inr {| topic := t; target_output := o; keywords := [] |}
  /\ create_workflow_plan hash console str_error json_loads exn_str
       query_json l
     = ((if encodable console t
         then "Plan successful. Session ID: " ++ plan_session_id hash t
              ++ ". Workflow steps: " ++ repr (VList (map VStr plan_steps))
              ++ "."
         else "CRITICAL TOOL ERROR: Failed to call Composio CREATE_PLAN. Error: "
              ++ exn_str (UnicodeEncodeError
                            ("-> Calling CREATE_PLAN for: " ++ use_case_of t))),
        (l ++ [CreatePlan (use_case_of t)
                 [VStr "arxiv_search_tool_slug";
                  VStr "pubchem_query_tool_slug"]])%list).
Proof.
  intros Hloads Ht Ho Hk.
  assert (Hvalid := ResearchQuery_init_valid d t o [] Ht Ho Hk).
  split; [exact Hvalid|].
  destruct (encodable console t) eqn:Hprint.
  - now rewrite (plan_wrapper_valid _ _ _ l Hloads Hvalid Hprint).
  - now rewrite (plan_wrapper_unprintable _ _ _ l Hloads Hvalid Hprint).
Qed.

(** C6 (as the code has it): [FinalSynthesis] has five required fields.
    On a JSON object that lacks one of them the Publish Wrapper returns
    the text of a validation error that names the field as missing; on one
    where all five are present with their declared types (texts, and a
    list of texts that may be empty) it returns the confirmation with the
    report address derived from the hypothesis when the console can print
    the hypothesis, and the text of the failed [print] otherwise. *)
Theorem publish_wrapper_checks_five_fields (final_synthesis_json : string)
  (d : list (string * value)) (l : list call) :
  json_loads final_synthesis_json = inr (VDict d) ->
  List.length FinalSynthesis_fields = 5%nat
  /\ (forall f,
        In f FinalSynthesis_fields -> lookup f d = None ->
        exists errors,
          publish_final_report hash console json_loads exn_str
            final_synthesis_json l
          = ("CRITICAL TOOL ERROR: Failed to publish report. Error: "
             ++ exn_str (ValidationError "FinalSynthesis" errors), l)
          /\ In (f, "missing") errors)
  /\ (forall h p a n links,
        lookup "hypothesis" d = Some (VStr h) ->
        lookup "protocol_summary" d = Some (VStr p) ->
        lookup "analysis_findings" d = Some (VStr a) ->
        lookup "prior_art_reference_links" d = Some (VList (map VStr links)) ->
        lookup "next_steps" d = Some (VStr n) ->
        publish_final_report hash console json_loads exn_str
          final_synthesis_json l
        = ((if encodable console h
            then "Final Synthesis published successfully. Report URL: "
                 ++ "https://notion.com/reports/" ++ Z_to_string (hash h)
                 ++ "."
            else "CRITICAL TOOL ERROR: Failed to publish report. Error: "
                 ++ exn_str
                      (UnicodeEncodeError
                         ("-> Calling Composio Notion Tool: Creating page '"
                          ++ h ++ "'"))),
           l)).
Proof.
  intros Hloads. split; [reflexivity|].
  split.
  - intros f Hf Hmissing. publish_after_loads Hloads.
    destruct (FinalSynthesis_init_missing d f Hf Hmissing) as (errors & E & Hin).
    exists errors. unfold lift. rewrite E. split; [reflexivity | exact Hin].
  - intros h p a n links Hh Hp Ha Hl Hn. publish_after_loads Hloads.
    rewrite (FinalSynthesis_init_valid d h p a n links Hh Hp Ha Hl Hn).
    cbv beta iota. unfold bind at 1. cbn [hypothesis].
    destruct (encodable console h) eqn:Hprint.
    + rewrite print_line_ok by now rewrite publish_line_encodable.
      reflexivity.
    + rewrite print_line_fails by now rewrite publish_line_encodable.
      reflexivity.
Qed.

(** The loop of the Remote Analysis Wrapper: one retrieve per key, in
    order, none of which can stop the loop. *)
Lemma retrieve_loop (keys : list value) (l : list call) :
  for_each keys
    (fun key => remote_workbench hash console str_error "retrieve" key VNone ;;
                ret tt) l
  = (inr tt, (l ++ map retrieve_call keys)%list).
Proof.
  revert l. induction keys as [|key keys IH]; intros l; simpl.
  - now rewrite app_nil_r.
  - unfold bind at 1. unfold bind at 1. rewrite retrieve_answer.
    unfold ret at 1. rewrite IH. now rewrite <- app_assoc.
Qed.

(** C8 (as the code has it): on a JSON list of keys the Remote Analysis
    Wrapper calls the workbench once per key, in order, whether or not the
    key is known, then calls the remote execution once, and returns the
    label [Analysis complete. Raw analysis output (stdout JSON): ] followed
    by the execution's stdout, unchanged. *)
Theorem analysis_wrapper_retrieves_then_executes (workbench_keys_json : string)
  (keys : list value) (l : list call) :
  json_loads workbench_keys_json = inr (VList keys) ->
  exists script bash_result stdout,
    run_data_analysis hash console str_error json_loads exn_str
      workbench_keys_json l
    = ("Analysis complete. Raw analysis output (stdout JSON): " ++ stdout,
       (l ++ map retrieve_call keys ++ [RemoteBash script])%list)
    /\ returned (remote_bash_tool script) = inr bash_result
    /\ field "successful" bash_result = VBool true
    /\ field "stdout" bash_result = VStr stdout
    /\ stdout = json_dumps analysis_output.
Proof.
  intros Hloads.
  exists ("analyze_data_from_workbench(keys=" ++ repr (VList keys) ++ ")").
  eexists. eexists.
  split; [|split; [reflexivity|split; [reflexivity|split; reflexivity]]].
  unfold run_data_analysis, try_except. after_loads Hloads.
  unfold bind at 1, iter, ret at 1.
  unfold bind at 1. rewrite retrieve_loop.
  cbn. now rewrite <- app_assoc.
Qed.

End WrapperProperties.
(* ================================================================== *)
(** * Concrete runs *)
(* ================================================================== *)

(** ** The tool router client *)

(** C1 fails as stated: no request still gives two result slots, and with
    the PubChem request first the first slot is still the arXiv one. *)
Lemma multi_execute_ignores_its_requests :
  exists batch0 batch2,
    returned (multi_execute_tool [] "sess-1") = inr batch0
    /\ List.length (result_slots batch0) = 2%nat
    /\ Nat.eqb (List.length (result_slots batch0)) (List.length (@nil value))
       = false
    /\ returned (multi_execute_tool pubchem_then_arxiv "sess-1") = inr batch2
    /\ map (field "tool_slug") pubchem_then_arxiv
       = [VStr "pubchem_query_tool_slug"; VStr "arxiv_search_tool_slug"]
    /\ map (field "tool_slug") (result_slots batch2)
       = [VStr "arxiv_search_tool_slug"; VStr "pubchem_query_tool_slug"].
Proof. do 2 eexists. repeat split. Qed.

(** C2 fails as stated: what was stored is not retrieved under the key
    the store answered with; a key nobody stored is answered for; and an
    unknown key gets a returned dict, not an error. *)
Lemma stored_value_is_not_retrieved :
  returned
    (stored <- remote_workbench sample_hash ascii_console sample_str_error
                 "store" VNone (VStr "raw search results") ;;
     k <- getitem stored "workbench_key" ;;
     remote_workbench sample_hash ascii_console sample_str_error
       "retrieve" k VNone)
  = inr workbench_failure
  /\ returned (remote_workbench sample_hash ascii_console sample_str_error
                 "retrieve" (VStr "PUBCHEM-RAW-DATA-KEY-456") VNone)
     = inr (VDict
              [ ("successful", VBool true);
                ("data",
                 VStr "{... large, structured scientific data for PUBCHEM-RAW-DATA-KEY-456 ...}") ])
  /\ returned (remote_workbench sample_hash ascii_console sample_str_error
                 "retrieve" (VStr "never-stored") VNone)
     = inr workbench_failure.
Proof. repeat split. Qed.

(** C2 (as the code has it) on a text stored without a key, and on a
    retrieve of a key nobody stored. *)
Lemma workbench_store_keeps_nothing_witness :
  has_text sample_str_error (VStr "raw search results") = true
  /\ remote_workbench sample_hash ascii_console sample_str_error
       "store" VNone (VStr "raw search results") []
     = (inr (VDict
               [ ("successful", VBool true);
                 ("workbench_key",
                  VStr ("workbench-data-"
                        ++ Z_to_string (sample_hash "raw search results"))) ]),
        [RemoteWorkbench "store" VNone (VStr "raw search results")])
  /\ (exists l',
        (stored <- remote_workbench sample_hash ascii_console sample_str_error
                     "store" VNone (VStr "raw search results") ;;
         k <- getitem stored "workbench_key" ;;
         remote_workbench sample_hash ascii_console sample_str_error
           "retrieve" k VNone) []
        = (inr workbench_failure, l')
        /\ l' = [ RemoteWorkbench "store" VNone (VStr "raw search results");
                  retrieve_call
                    (VStr (generated_key sample_hash
                             (VStr "raw search results"))) ])
  /\ fst (remote_workbench sample_hash ascii_console sample_str_error
            "retrieve" (VStr "never-stored") VNone [])
     = inr workbench_failure
  /\ field "successful" workbench_failure = VBool false.
Proof.
  split; [reflexivity|].
  exact (workbench_store_keeps_nothing sample_hash ascii_console
           sample_str_error (VStr "raw search results") (VStr "never-stored")
           [] eq_refl).
Defined.

(** C7 fails as stated: two stores in one session, of two different
    values, answer with one and the same key. *)
Lemma two_stores_one_key :
  returned
    (r1 <- remote_workbench sample_hash ascii_console sample_str_error
             "store" VNone (VInt 1) ;;
     r2 <- remote_workbench sample_hash ascii_console sample_str_error
             "store" VNone (VStr "1") ;;
     ret (field "workbench_key" r1, field "workbench_key" r2))
  = inr (VStr "workbench-data--1152921504606846710",
         VStr "workbench-data--1152921504606846710").
Proof. vm_compute. reflexivity. Qed.

(** C7 (as the code has it) on the number one and the text of the number
    one. *)
Lemma workbench_keys_follow_the_hash_witness :
  has_text sample_str_error (VInt 1) = true
  /\ has_text sample_str_error (VStr "1") = true
  /\ fst ((r1 <- remote_workbench sample_hash ascii_console sample_str_error
                   "store" VNone (VInt 1) ;;
           r2 <- remote_workbench sample_hash ascii_console sample_str_error
                   "store" VNone (VStr "1") ;;
           ret (field "workbench_key" r1, field "workbench_key" r2)) [])
     = inr (VStr ("workbench-data-" ++ Z_to_string (sample_hash "1")),
            VStr ("workbench-data-" ++ Z_to_string (sample_hash "1")))
  /\ ("workbench-data-" ++ Z_to_string (sample_hash "1")
      = "workbench-data-" ++ Z_to_string (sample_hash "1")
      <-> sample_hash "1" = sample_hash "1").
Proof.
  split; [vm_compute; reflexivity|]. split; [reflexivity|].
  pose proof (workbench_keys_follow_the_hash sample_hash ascii_console
                sample_str_error (VInt 1) (VStr "1") []
                (eq_refl : has_text sample_str_error (VInt 1) = true)
                eq_refl)
    as (H1 & H2 & _).
  split; [exact H1 | exact H2].
Defined.

(** C9 on an action the workbench does not know. *)
Lemma workbench_structured_failure_witness :
  (("purge" <> "store" /\ "purge" <> "retrieve")
   \/ ("purge" = "retrieve" /\ in_strs (VStr "k") KNOWN_KEYS = false))
  /\ remote_workbench sample_hash ascii_console sample_str_error
       "purge" (VStr "k") VNone []
     = (inr workbench_failure, [RemoteWorkbench "purge" (VStr "k") VNone]).
Proof.
  assert (H : ("purge" <> "store" /\ "purge" <> "retrieve")
              \/ ("purge" = "retrieve" /\ in_strs (VStr "k") KNOWN_KEYS = false)).
  { left. split; discriminate. }
  split; [exact H|].
  exact (proj1 (workbench_structured_failure sample_hash ascii_console
                  sample_str_error "purge" (VStr "k") VNone [] H)).
Defined.

(** ** The tool wrappers *)

(** C3 fails as stated: on an opening bracket followed by an integer
    literal of 5000 digits, which is no JSON, [json.loads] raises
    [ValueError], and no wrapper's answer holds the word JSON. *)
Lemma oversized_literal_is_no_json_error :
  sample_json_loads oversized_text
  = inl (ValueError (literal_limit_message 5000))
  /\ output (create_workflow_plan sample_hash ascii_console sample_str_error
               sample_json_loads sample_exn_str oversized_text)
     = "CRITICAL TOOL ERROR: Failed to call Composio CREATE_PLAN. Error: Exceeds the limit (4300 digits) for integer string conversion: value has 5000 digits; use sys.set_int_max_str_digits() to increase the limit"
  /\ contains "JSON"
       (output (create_workflow_plan sample_hash ascii_console
                  sample_str_error sample_json_loads sample_exn_str
                  oversized_text))
     = false
  /\ contains "JSON"
       (output (execute_parallel_research sample_json_loads sample_exn_str
                  "sess-1" oversized_text))
     = false
  /\ contains "JSON"
       (output (run_data_analysis sample_hash ascii_console sample_str_error
                  sample_json_loads sample_exn_str oversized_text))
     = false
  /\ contains "JSON"
       (output (publish_final_report sample_hash ascii_console
                  sample_json_loads sample_exn_str oversized_text))
     = false.
Proof. repeat split; vm_compute; reflexivity. Qed.

(** C3 (as the code has it) on a text that is no JSON and that the
    decoder rejects as such. *)
Lemma wrappers_report_malformed_json_witness :
  sample_json_loads "{not json" = inl JSONDecodeError
  /\ output (create_workflow_plan sample_hash ascii_console sample_str_error
               sample_json_loads sample_exn_str "{not json")
     = "CRITICAL TOOL ERROR: Input was not valid JSON. You must pass a JSON string conforming to ResearchQuery."
  /\ (exists msg,
        create_workflow_plan sample_hash ascii_console sample_str_error
          sample_json_loads sample_exn_str "{not json" []
        = (msg, []) /\ contains "JSON" msg = true)
  /\ (exists msg,
        execute_parallel_research sample_json_loads sample_exn_str
          "sess-1" "{not json" []
        = (msg, []) /\ contains "JSON" msg = true)
  /\ (exists msg,
        run_data_analysis sample_hash ascii_console sample_str_error
          sample_json_loads sample_exn_str "{not json" []
        = (msg, []) /\ contains "JSON" msg = true)
  /\ (exists msg,
        publish_final_report sample_hash ascii_console
          sample_json_loads sample_exn_str "{not json" []
        = (msg, []) /\ contains "JSON" msg = true).
Proof.
  split; [reflexivity|]. split; [reflexivity|].
  exact (wrappers_report_malformed_json sample_hash ascii_console
           sample_str_error sample_json_loads sample_exn_str
           "{not json" "sess-1" JSONDecodeError [] eq_refl).
Defined.

(** C4 fails as stated: the query with no keyword validates, and the Plan
    Wrapper returns a plan for it. *)
Lemma empty_keywords_pass_validation :
  ResearchQuery_init query_without_keywords
  = inr {| topic := "graphene quantum dots for drug delivery";
           target_output := "Draft full experimental protocol";
           keywords := [] |}
  /\ output (create_workflow_plan sample_hash ascii_console sample_str_error
               sample_json_loads sample_exn_str
               (json_dumps query_without_keywords))
     = "Plan successful. Session ID: sess--6595866622616859. Workflow steps: ['1. Literature Review (Parallel search using arxiv_search_tool_slug and pubchem_query_tool_slug)', '2. Store raw results in Remote Workbench.', '3. Execute Python Code (Remote Bash) for data cleaning and initial analysis.', '4. Draft Final Hypothesis and Protocol.', '5. Publish report to Notion/Docs.']."
  /\ contains "ERROR" (output (create_workflow_plan sample_hash ascii_console
                                 sample_str_error
                                 sample_json_loads sample_exn_str
                                 (json_dumps query_without_keywords)))
     = false.
Proof. repeat split; vm_compute; reflexivity. Qed.

(** C4 (as the code has it) on the query with no keyword, printed on an
    ASCII console. *)
Lemma empty_keywords_are_accepted_witness :
  sample_json_loads (json_dumps query_without_keywords)
  = inr query_without_keywords
  /\ ResearchQuery_init query_without_keywords
     = inr {| topic := "graphene quantum dots for drug delivery";
              target_output := "Draft full experimental protocol";
              keywords := [] |}
  /\ create_workflow_plan sample_hash ascii_console sample_str_error
       sample_json_loads sample_exn_str (json_dumps query_without_keywords) []
     = ("Plan successful. Session ID: "
        ++ plan_session_id sample_hash "graphene quantum dots for drug delivery"
        ++ ". Workflow steps: " ++ repr (VList (map VStr plan_steps)) ++ ".",
        [CreatePlan (use_case_of "graphene quantum dots for drug delivery")
           [VStr "arxiv_search_tool_slug"; VStr "pubchem_query_tool_slug"]]).
Proof.
  split; [reflexivity|].
  exact (empty_keywords_are_accepted sample_hash ascii_console
           sample_str_error sample_json_loads
           sample_exn_str (json_dumps query_without_keywords)
           "graphene quantum dots for drug delivery"
           "Draft full experimental protocol"
           _ [] eq_refl eq_refl eq_refl eq_refl).
Defined.



(** C10 on two queries that share their topic only. *)
Lemma plan_depends_on_topic_only_witness :
  sample_json_loads (json_dumps query_graphene) = inr query_graphene
  /\ sample_json_loads (json_dumps query_graphene_other)
     = inr query_graphene_other
  /\ String.eqb (json_dumps query_graphene) (json_dumps query_graphene_other)
     = false
  /\ create_workflow_plan sample_hash ascii_console sample_str_error
       sample_json_loads sample_exn_str (json_dumps query_graphene) []
     = create_workflow_plan sample_hash ascii_console sample_str_error
         sample_json_loads sample_exn_str (json_dumps query_graphene_other) [].
Proof.
  split; [reflexivity|]. split; [reflexivity|]. split; [reflexivity|].
  exact (proj1 (plan_depends_on_topic_only sample_hash ascii_console
                  sample_str_error sample_json_loads
                  sample_exn_str (json_dumps query_graphene)
                  (json_dumps query_graphene_other)
                  query_graphene query_graphene_other
                  {| topic := "graphene quantum dots for drug delivery";
                     target_output := "Draft full experimental protocol";
                     keywords := ["graphene"; "delivery"] |}
                  {| topic := "graphene quantum dots for drug delivery";
                     target_output := "Prior art matrix";
                     keywords := ["nanomedicine"] |}
                  [] eq_refl eq_refl eq_refl eq_refl eq_refl)).
Defined.

(** C6 fails as stated: the model has five required fields, not six, and
    a payload in which every one of them is present is still refused when
    a field has the wrong type (here the hypothesis is [null]). *)
Lemma publish_refuses_a_null_hypothesis :
  List.length FinalSynthesis_fields = 5%nat
  /\ map fst (items_of synthesis_with_null_hypothesis) = FinalSynthesis_fields
  /\ FinalSynthesis_init synthesis_with_null_hypothesis
     = inl (ValidationError "FinalSynthesis" [("hypothesis", "string_type")])
  /\ output (publish_final_report sample_hash ascii_console sample_json_loads
               sample_exn_str (json_dumps synthesis_with_null_hypothesis))
     = "CRITICAL TOOL ERROR: Failed to publish report. Error: 1 validation errors for FinalSynthesis".
Proof. repeat split; vm_compute; reflexivity. Qed.

(** C6 (as the code has it) on a synthesis whose list of links is empty,
    printed on an ASCII console. *)
Lemma publish_wrapper_checks_five_fields_witness :
  sample_json_loads (json_dumps synthesis_complete) = inr (VDict synthesis_items)
  /\ lookup "prior_art_reference_links" synthesis_items = Some (VList [])
  /\ List.length FinalSynthesis_fields = 5%nat
  /\ publish_final_report sample_hash ascii_console sample_json_loads
       sample_exn_str (json_dumps synthesis_complete) []
     = ("Final Synthesis published successfully. Report URL: "
        ++ "https://notion.com/reports/"
        ++ Z_to_string (sample_hash "Quantum dots improve delivery.") ++ ".",
        []).
Proof.
  split; [reflexivity|]. split; [reflexivity|].
  pose proof (publish_wrapper_checks_five_fields sample_hash ascii_console
                sample_json_loads sample_exn_str
                (json_dumps synthesis_complete) synthesis_items [] eq_refl)
    as (Hfive & _ & Haccept).
  split; [exact Hfive|].
  exact (Haccept "Quantum dots improve delivery." "Three steps."
           "Three compounds passed." "In-vitro testing." []
           eq_refl eq_refl eq_refl eq_refl eq_refl).
Defined.

(** C8 fails as stated: what the wrapper returns is not the stdout of the
    remote execution but a sentence that ends with it. *)
Lemma analysis_output_is_not_the_stdout :
  exists bash_result stdout,
    returned (remote_bash_tool
                "analyze_data_from_workbench(keys=['ARXIV-RAW-DATA-KEY-123', 'no-such-key'])")
    = inr bash_result
    /\ field "stdout" bash_result = VStr stdout
    /\ snd (run_data_analysis sample_hash ascii_console sample_str_error
              sample_json_loads sample_exn_str (json_dumps two_keys) [])
       = [ retrieve_call (VStr "ARXIV-RAW-DATA-KEY-123");
           retrieve_call (VStr "no-such-key");
           RemoteBash "analyze_data_from_workbench(keys=['ARXIV-RAW-DATA-KEY-123', 'no-such-key'])" ]
    /\ output (run_data_analysis sample_hash ascii_console sample_str_error
                 sample_json_loads sample_exn_str (json_dumps two_keys))
       = "Analysis complete. Raw analysis output (stdout JSON): " ++ stdout
    /\ String.eqb
         (output (run_data_analysis sample_hash ascii_console sample_str_error
                    sample_json_loads sample_exn_str (json_dumps two_keys)))
         stdout
       = false.
Proof. do 2 eexists. repeat split; vm_compute; reflexivity. Qed.

(** C8 (as the code has it) on a known key and an unknown one. *)
Lemma analysis_wrapper_retrieves_then_executes_witness :
  sample_json_loads (json_dumps two_keys)
  = inr (VList [VStr "ARXIV-RAW-DATA-KEY-123"; VStr "no-such-key"])
  /\ exists script bash_result stdout,
       run_data_analysis sample_hash ascii_console sample_str_error
         sample_json_loads sample_exn_str (json_dumps two_keys) []
       = ("Analysis complete. Raw analysis output (stdout JSON): " ++ stdout,
          ([] ++ map retrieve_call
                   [VStr "ARXIV-RAW-DATA-KEY-123"; VStr "no-such-key"]
              ++ [RemoteBash script])%list)
       /\ returned (remote_bash_tool script) = inr bash_result
       /\ field "successful" bash_result = VBool true
       /\ field "stdout" bash_result = VStr stdout
       /\ stdout = json_dumps analysis_output.
Proof.
  split; [reflexivity|].
  exact (analysis_wrapper_retrieves_then_executes sample_hash ascii_console
           sample_str_error
           sample_json_loads sample_exn_str (json_dumps two_keys)
           [VStr "ARXIV-RAW-DATA-KEY-123"; VStr "no-such-key"] [] eq_refl).
Defined.

(** The Publish Wrapper on a synthesis that lacks its last field. *)
Example publish_refuses_missing_next_steps :
  output (publish_final_report sample_hash ascii_console sample_json_loads
            sample_exn_str (json_dumps synthesis_without_next_steps))
  = "CRITICAL TOOL ERROR: Failed to publish report. Error: 1 validation errors for FinalSynthesis"
  /\ FinalSynthesis_init synthesis_without_next_steps
     = inl (ValidationError "FinalSynthesis" [("next_steps", "missing")]).
Proof. split; vm_compute; reflexivity. Qed.

(** The same query on a console that encodes every code point: the plan
    is returned. *)
Example printable_topic_gets_a_plan :
  String.prefix "Plan successful. Session ID: sess-"
    (output (create_workflow_plan sample_hash utf8_console sample_str_error
               more_json_loads sample_exn_str (json_dumps query_cafe)))
  = true.
Proof. vm_compute. reflexivity. Qed.

(** The Publish Wrapper on a hypothesis an ASCII console cannot print. *)
Example publish_fails_on_an_unprintable_hypothesis :
  more_json_loads (json_dumps synthesis_cafe) = inr synthesis_cafe
  /\ output (publish_final_report sample_hash ascii_console more_json_loads
               sample_exn_str (json_dumps synthesis_cafe))
     = "CRITICAL TOOL ERROR: Failed to publish report. Error: 'ascii' codec can't encode character '\xe9' in position 51: ordinal not in range(128)".
Proof. split; vm_compute; reflexivity. Qed.
(* ================================================================== *)
(** * More on the schema layer *)
(* ================================================================== *)

Lemma str_items_inr (f : string) (l : list value) (ss : list string) :
  str_items f l = inr ss -> l = map VStr ss.
Proof.
  revert ss. induction l as [|x l IH]; intros ss H; simpl in H.
  - injection H as <-. reflexivity.
  - destruct (str_items f l) as [es|ss'];
      destruct x; try discriminate.
    injection H as <-. simpl. now rewrite (IH ss' eq_refl).
Qed.

Lemma field_str_inr (f : string) (d : list (string * value)) (s : string) :
  field_str f d = inr s -> lookup f d = Some (VStr s).
Proof.
  unfold field_str. destruct (lookup f d) as [[]|]; try discriminate.
  now intros [= ->].
Qed.

Lemma field_str_list_inr (f : string) (d : list (string * value))
  (ss : list string) :
  field_str_list f d = inr ss -> lookup f d = Some (VList (map VStr ss)).
Proof.
  unfold field_str_list. destruct (lookup f d) as [[]|]; try discriminate.
  intros H. now rewrite (str_items_inr _ _ _ H).
Qed.

(** X1: [ResearchQuery] validates exactly the mappings whose three fields
    are present, the two texts being texts and the keywords a list of
    texts; the query it builds holds these three values, and nothing else
    of the mapping matters. *)
Theorem ResearchQuery_init_exact (payload : value) (query : ResearchQuery) :
  ResearchQuery_init payload = inr query
  <-> exists d,
        payload = VDict d
        /\ lookup "topic" d = Some (VStr (topic query))
        /\ lookup "target_output" d = Some (VStr (target_output query))
        /\ lookup "keywords" d = Some (VList (map VStr (keywords query))).
Proof.
  split.
  - destruct payload as [| | | | |l|d]; try discriminate.
    intros H. exists d. split; [reflexivity|].
    unfold ResearchQuery_init in H.
    destruct (field_str "topic" d) as [e1|t] eqn:Et;
      destruct (field_str "target_output" d) as [e2|o] eqn:Eo;
      destruct (field_str_list "keywords" d) as [e3|k] eqn:Ek;
      try discriminate.
    injection H as <-. simpl.
    auto using field_str_inr, field_str_list_inr.
  - intros (d & -> & Ht & Ho & Hk). destruct query as [t o k].
    now apply ResearchQuery_init_valid.
Qed.

(** X2: [FinalSynthesis] validates exactly the mappings whose five fields
    are present, four of them texts and the links a list of texts (of any
    length); the synthesis it builds holds these five values. *)
Theorem FinalSynthesis_init_exact (payload : value) (s : FinalSynthesis) :
  FinalSynthesis_init payload = inr s
  <-> exists d,
        payload = VDict d
        /\ lookup "hypothesis" d = Some (VStr (hypothesis s))
        /\ lookup "protocol_summary" d = Some (VStr (protocol_summary s))
        /\ lookup "analysis_findings" d = Some (VStr (analysis_findings s))
        /\ lookup "prior_art_reference_links" d
           = Some (VList (map VStr (prior_art_reference_links s)))
        /\ lookup "next_steps" d = Some (VStr (next_steps s)).
Proof.
  split.
  - destruct payload as [| | | | |l|d]; try discriminate.
    intros H. exists d. split; [reflexivity|].
    unfold FinalSynthesis_init in H.
    destruct (field_str "hypothesis" d) as [e1|h] eqn:Eh;
      destruct (field_str "protocol_summary" d) as [e2|p] eqn:Ep;
      destruct (field_str "analysis_findings" d) as [e3|a] eqn:Ea;
      destruct (field_str_list "prior_art_reference_links" d) as [e4|r] eqn:Er;
      destruct (field_str "next_steps" d) as [e5|n] eqn:En;
      try discriminate.
    injection H as <-. simpl.
    auto 6 using field_str_inr, field_str_list_inr.
  - intros (d & -> & Hh & Hp & Ha & Hr & Hn). destruct s as [h p a r n].
    now apply FinalSynthesis_init_valid.
Qed.

(** What validation raises is never the JSON decoding error. *)
Lemma ResearchQuery_init_error (payload : value) (e : exn) :
  ResearchQuery_init payload = inl e -> json_error e = false.
Proof.
  destruct payload as [| | | | |l|d]; try (intros [= <-]; reflexivity).
  unfold ResearchQuery_init.
  destruct (field_str "topic" d), (field_str "target_output" d),
    (field_str_list "keywords" d); intros [= <-]; reflexivity.
Qed.

Lemma FinalSynthesis_init_error (payload : value) (e : exn) :
  FinalSynthesis_init payload = inl e -> json_error e = false.
Proof.
  destruct payload as [| | | | |l|d]; try (intros [= <-]; reflexivity).
  unfold FinalSynthesis_init.
  destruct (field_str "hypothesis" d), (field_str "protocol_summary" d),
    (field_str "analysis_findings" d),
    (field_str_list "prior_art_reference_links" d),
    (field_str "next_steps" d); intros [= <-]; reflexivity.
Qed.

(* ================================================================== *)
(** * The client's construction *)
(* ================================================================== *)


(* ================================================================== *)
(** * Computations that leave the client alone *)
(* ================================================================== *)

Lemma quiet_ret {A : Type} (a : A) : quiet (ret a).
Proof. intros l. left. now exists a. Qed.

Lemma quiet_raise {A : Type} (e : exn) :
  json_error e = false -> quiet (@raise A e).
Proof. intros H l. right. now exists e. Qed.

Lemma quiet_bind {A B : Type} (m : M A) (k : A -> M B) :
  quiet m -> (forall a, quiet (k a)) -> quiet (bind m k).
Proof.
  intros Hm Hk l. unfold bind.
  destruct (Hm l) as [(a & ->)|(e & -> & He)].
  - apply Hk.
  - right. now exists e.
Qed.

Lemma quiet_get (d : value) (k : string) (default : value) :
  quiet (get d k default).
Proof.
  destruct d; try (now apply quiet_raise).
  simpl. destruct (lookup k d); apply quiet_ret.
Qed.

Lemma quiet_getitem (d : value) (k : string) : quiet (getitem d k).
Proof.
  destruct d; try (now apply quiet_raise).
  simpl. destruct (lookup k d); [apply quiet_ret | now apply quiet_raise].
Qed.

Lemma quiet_iter (v : value) : quiet (iter v).
Proof. destruct v; try (now apply quiet_raise); apply quiet_ret. Qed.

Lemma quiet_get_by_value (table : list (string * value)) (k : value) :
  quiet (get_by_value table k).
Proof.
  unfold get_by_value.
  destruct k; simpl; try apply quiet_ret; try (now apply quiet_raise).
  destruct (lookup s table); apply quiet_ret.
Qed.

Lemma quiet_prepare_request (req : value) : quiet (prepare_request req).
Proof.
  unfold prepare_request.
  apply quiet_bind; [apply quiet_get|intros asked].
  apply quiet_bind; [apply quiet_get_by_value|intros known].
  apply quiet_bind.
  - destruct (truthy known); [apply quiet_ret | apply quiet_get].
  - intros slug. apply quiet_bind; [apply quiet_get|intros args].
    apply quiet_ret.
Qed.

Lemma quiet_map_m {A B : Type} (f : A -> M B) (xs : list A) :
  (forall x, quiet (f x)) -> quiet (map_m f xs).
Proof.
  intros Hf. induction xs as [|x xs IH]; simpl.
  - apply quiet_ret.
  - apply quiet_bind; [apply Hf|intros y].
    apply quiet_bind; [exact IH|intros ys]. apply quiet_ret.
Qed.

Lemma quiet_collect_keys (results : list value) :
  quiet (collect_keys results).
Proof.
  induction results as [|res rest IH]; simpl.
  - apply quiet_ret.
  - apply quiet_bind; [apply quiet_get|intros k].
    destruct (truthy k); [|exact IH].
    apply quiet_bind; [apply quiet_get|intros k'].
    apply quiet_bind; [exact IH|intros ks]. apply quiet_ret.
Qed.

(** The two ways out of a wrapper's [try]. *)
Lemma try_except_returns (body : M string) (on_json : string)
  (on_exn : exn -> string) (l l' : list call) (out : string) :
  body l = (inr out, l') -> try_except body on_json on_exn l = (out, l').
Proof. unfold try_except. now intros ->. Qed.

Lemma try_except_handles (body : M string) (on_json : string)
  (on_exn : exn -> string) (l l' : list call) (e : exn) :
  body l = (inl e, l') -> json_error e = false ->
  try_except body on_json on_exn l = (on_exn e, l').
Proof. unfold try_except. intros -> He. now destruct e. Qed.

Lemma error_text_critical (rest : string) :
  error_text ("CRITICAL TOOL ERROR: " ++ rest) = true.
Proof. unfold error_text. rewrite prefix_app. apply orb_true_r. Qed.

(* ================================================================== *)
(** * More on the client *)
(* ================================================================== *)

Section MoreClientProperties.

Variable hash : string -> Z.
Variable console : ascii -> bool.
Variable str_error : value -> option exn.

(** [create_plan] up to the formatting of its first step. *)
Lemma create_plan_printed (use_case : string) (slugs : list value)
  (l : list call) :
  encodable console ("-> Calling CREATE_PLAN for: " ++ use_case) = true ->
  create_plan hash console str_error use_case slugs l
  = (slug0 <- index slugs 0 ;;
     text0 <- text_of str_error slug0 ;;
     slug1 <- index slugs 1 ;;
     text1 <- text_of str_error slug1 ;;
     ret (VDict
       [ ("successful", VBool true);
         ("complexity_assessment",
          VStr "Hard (requires multi-agent collaboration and large file processing).");
         ("workflow_steps",
          VList
            [ VStr ("1. Literature Review (Parallel search using " ++ text0
                    ++ " and " ++ text1 ++ ")");
              VStr "2. Store raw results in Remote Workbench.";
              VStr "3. Execute Python Code (Remote Bash) for data cleaning and initial analysis.";
              VStr "4. Draft Final Hypothesis and Protocol.";
              VStr "5. Publish report to Notion/Docs." ]);
         ("session_id", VStr ("sess-" ++ Z_to_string (hash use_case)));
         ("reasoning",
          VStr "The complexity requires orchestration across research tools and a custom execution environment.") ]))
    (l ++ [CreatePlan use_case slugs])%list.
Proof.
  intros Hprint. unfold create_plan. unfold bind at 1, record.
  unfold bind at 1. now rewrite (print_line_ok _ _ _ Hprint).
Qed.

(** [create_plan] on two slugs or more that have a text. *)
Lemma create_plan_two_slugs (use_case : string) (s0 s1 : value)
  (more : list value) (l : list call) :
  encodable console ("-> Calling CREATE_PLAN for: " ++ use_case) = true ->
  has_text str_error s0 = true -> has_text str_error s1 = true ->
  create_plan hash console str_error use_case (s0 :: s1 :: more) l
  = (inr (VDict
       [ ("successful", VBool true);
         ("complexity_assessment",
          VStr "Hard (requires multi-agent collaboration and large file processing).");
         ("workflow_steps",
          VList
            [ VStr ("1. Literature Review (Parallel search using " ++ str s0
                    ++ " and " ++ str s1 ++ ")");
              VStr "2. Store raw results in Remote Workbench.";
              VStr "3. Execute Python Code (Remote Bash) for data cleaning and initial analysis.";
              VStr "4. Draft Final Hypothesis and Protocol.";
              VStr "5. Publish report to Notion/Docs." ]);
         ("session_id", VStr ("sess-" ++ Z_to_string (hash use_case)));
         ("reasoning",
          VStr "The complexity requires orchestration across research tools and a custom execution environment.") ]),
     (l ++ [CreatePlan use_case (s0 :: s1 :: more)])%list).
Proof.
  intros Hprint H0 H1. rewrite (create_plan_printed _ _ _ Hprint).
  unfold bind at 1. cbn [index nth_error]. unfold ret at 1.
  unfold bind at 1. rewrite (text_of_text _ _ _ H0).
  unfold bind at 1. cbn [index nth_error]. unfold ret at 1.
  unfold bind at 1. rewrite (text_of_text _ _ _ H1).
  reflexivity.
Qed.

(** X4: [create_plan] records the call, then prints its use case, then
    formats the first slug, then the second.  So a use case the console
    cannot print raises [UnicodeEncodeError] whatever the slugs; past the
    print, a first slug that has no text raises the exception of its
    [str] before the second slug is looked for; no slug, or one slug that
    has a text, raises [IndexError]; and two slugs or more that have a
    text give a successful plan of five steps whose first step names the
    first two slugs, under the session id [sess-<hash(use_case)>], the
    slugs beyond the second playing no part. *)
Theorem create_plan_needs_two_slugs (use_case : string)
  (slugs : list value) (l : list call) :
  (encodable console ("-> Calling CREATE_PLAN for: " ++ use_case) = false ->
   create_plan hash console str_error use_case slugs l
   = (inl (UnicodeEncodeError ("-> Calling CREATE_PLAN for: " ++ use_case)),
      (l ++ [CreatePlan use_case slugs])%list))
  /\ (encodable console ("-> Calling CREATE_PLAN for: " ++ use_case) = true ->
      (forall s0 more e,
         slugs = s0 :: more -> str_error s0 = Some e ->
         has_text str_error s0 = false ->
         create_plan hash console str_error use_case slugs l
         = (inl e, (l ++ [CreatePlan use_case slugs])%list))
      /\ ((List.length slugs < 2)%nat ->
          forallb (has_text str_error) slugs = true ->
          create_plan hash console str_error use_case slugs l
          = (inl IndexError, (l ++ [CreatePlan use_case slugs])%list))
      /\ (forall s0 s1 more,
            slugs = s0 :: s1 :: more ->
            has_text str_error s0 = true -> has_text str_error s1 = true ->
            exists plan,
              create_plan hash console str_error use_case slugs l
              = (inr plan, (l ++ [CreatePlan use_case slugs])%list)
              /\ field "successful" plan = VBool true
              /\ field "session_id" plan
                 = VStr ("sess-" ++ Z_to_string (hash use_case))
              /\ List.length (items (field "workflow_steps" plan)) = 5%nat
              /\ nth_error (items (field "workflow_steps" plan)) 0
                 = Some (VStr ("1. Literature Review (Parallel search using "
                               ++ str s0 ++ " and " ++ str s1 ++ ")"))
              /\ fst (create_plan hash console str_error use_case [s0; s1] l)
                 = inr plan)).
Proof.
  split.
  - intros Hprint. unfold create_plan. unfold bind at 1, record.
    unfold bind at 1. now rewrite (print_line_fails _ _ _ Hprint).
  - intros Hprint. split; [|split].
    + intros s0 more e -> He Hno. rewrite (create_plan_printed _ _ _ Hprint).
      unfold bind at 1. cbn [index nth_error]. unfold ret at 1.
      unfold bind at 1.
      destruct (text_of_no_text str_error s0
                  (l ++ [CreatePlan use_case (s0 :: more)])%list Hno)
        as (e' & He' & ->).
      congruence.
    + intros Hlen Htext. rewrite (create_plan_printed _ _ _ Hprint).
      destruct slugs as [|s0 [|s1 more]]; simpl in Hlen; [reflexivity| |lia].
      cbn [forallb] in Htext. rewrite andb_true_r in Htext.
      unfold bind at 1. cbn [index nth_error]. unfold ret at 1.
      unfold bind at 1. now rewrite (text_of_text _ _ _ Htext).
    + intros s0 s1 more -> H0 H1.
      rewrite (create_plan_two_slugs use_case s0 s1 more l Hprint H0 H1).
      rewrite (create_plan_two_slugs use_case s0 s1 [] l Hprint H0 H1).
      eexists. split; [reflexivity|]. repeat split.
Qed.

(** X5: a store that returns answers with a key that is truthy, so never
    [None] nor the empty text: the caller's key when that one is truthy,
    and the generated one otherwise (an empty text given as the key counts
    as no key).  It does return when no key is given and the data have a
    text, and when the key given has a text the console can print. *)
Theorem store_answers_with_a_usable_key (key data : value) (l : list call) :
  (forall r l',
     remote_workbench hash console str_error "store" key data l = (inr r, l') ->
     exists k,
       r = VDict [("successful", VBool true); ("workbench_key", k)]
       /\ l' = (l ++ [RemoteWorkbench "store" key data])%list
       /\ truthy k = true
       /\ k = (if truthy key then key else VStr (generated_key hash data)))
  /\ (truthy key = false -> has_text str_error data = true ->
      remote_workbench hash console str_error "store" key data l
      = (inr (VDict [ ("successful", VBool true);
                      ("workbench_key", VStr (generated_key hash data)) ]),
         (l ++ [RemoteWorkbench "store" key data])%list))
  /\ (truthy key = true -> has_text str_error key = true ->
      encodable console (str key) = true ->
      remote_workbench hash console str_error "store" key data l
      = (inr (VDict [("successful", VBool true); ("workbench_key", key)]),
         (l ++ [RemoteWorkbench "store" key data])%list)).
Proof.
  assert (Hgen : truthy key = false -> has_text str_error data = true ->
      remote_workbench hash console str_error "store" key data l
      = (inr (VDict [ ("successful", VBool true);
                      ("workbench_key", VStr (generated_key hash data)) ]),
         (l ++ [RemoteWorkbench "store" key data])%list)).
  { intros Hk Htext. unfold remote_workbench, generated_key.
    unfold bind at 1, record. cbn [String.eqb Ascii.eqb Bool.eqb].
    rewrite Hk. unfold bind at 1. unfold bind at 1.
    rewrite (text_of_text _ _ _ Htext).
    unfold ret at 1. unfold bind at 1. cbn [text_of]. unfold ret at 1.
    unfold bind at 1.
    rewrite print_line_ok
      by (rewrite !encodable_app, encodable_Z_to_string; reflexivity).
    reflexivity. }
  assert (Hown : truthy key = true -> has_text str_error key = true ->
      encodable console (str key) = true ->
      remote_workbench hash console str_error "store" key data l
      = (inr (VDict [("successful", VBool true); ("workbench_key", key)]),
         (l ++ [RemoteWorkbench "store" key data])%list)).
  { intros Hk Htext Hprint. unfold remote_workbench.
    unfold bind at 1, record. cbn [String.eqb Ascii.eqb Bool.eqb].
    rewrite Hk. unfold bind at 1. unfold ret at 1. unfold bind at 1.
    rewrite (text_of_text _ _ _ Htext). unfold bind at 1.
    rewrite print_line_ok by (rewrite encodable_app, Hprint; reflexivity).
    reflexivity. }
  split; [|split; assumption].
  intros r l' Hrun. destruct (truthy key) eqn:Hk.
  - destruct (has_text str_error key) eqn:Htext.
    + destruct (encodable console (str key)) eqn:Hprint.
      * rewrite (Hown eq_refl eq_refl eq_refl) in Hrun.
        injection Hrun as <- <-. exists key. repeat split. exact Hk.
      * exfalso. revert Hrun. unfold remote_workbench.
        unfold bind at 1, record. cbn [String.eqb Ascii.eqb Bool.eqb].
        rewrite Hk. unfold bind at 1. unfold ret at 1. unfold bind at 1.
        rewrite (text_of_text _ _ _ Htext). unfold bind at 1.
        rewrite print_line_fails by (rewrite encodable_app, Hprint; reflexivity).
        discriminate.
    + exfalso. revert Hrun. unfold remote_workbench.
      unfold bind at 1, record. cbn [String.eqb Ascii.eqb Bool.eqb].
      rewrite Hk. unfold bind at 1. unfold ret at 1. unfold bind at 1.
      destruct (text_of_no_text str_error key
                  (l ++ [RemoteWorkbench "store" key data])%list Htext)
        as (e & _ & ->).
      discriminate.
  - destruct (has_text str_error data) eqn:Htext.
    + rewrite (Hgen eq_refl eq_refl) in Hrun.
      injection Hrun as <- <-. eexists. repeat split.
    + exfalso. revert Hrun. unfold remote_workbench.
      unfold bind at 1, record. cbn [String.eqb Ascii.eqb Bool.eqb].
      rewrite Hk. unfold bind at 1. unfold bind at 1.
      destruct (text_of_no_text str_error data
                  (l ++ [RemoteWorkbench "store" key data])%list Htext)
        as (e & _ & ->).
      discriminate.
Qed.

End MoreClientProperties.
(* ================================================================== *)
(** * More on the Plan Wrapper and the Publish Wrapper *)
(* ================================================================== *)

Lemma length_append (a b : string) :
  String.length (a ++ b) = (String.length a + String.length b)%nat.
Proof. induction a as [|c a IH]; simpl; [reflexivity | now rewrite IH]. Qed.

Lemma append_inj_r (x y c : string) : x ++ c = y ++ c -> x = y.
Proof.
  revert y. induction x as [|a x IH]; intros [|b y] H; simpl in H.
  - reflexivity.
  - apply (f_equal String.length) in H. simpl in H.
    rewrite length_append in H. lia.
  - apply (f_equal String.length) in H. simpl in H.
    rewrite length_append in H. lia.
  - injection H as -> H. now rewrite (IH y H).
Qed.

Section MoreWrapperProperties.

Variable hash : string -> Z.
Variable console : ascii -> bool.
Variable str_error : value -> option exn.
Variable json_loads : string -> result value.
Variable exn_str : exn -> string.

(** The Plan Wrapper on a text the decoder rejects. *)
Lemma plan_wrapper_undecoded (query_json : string) (e : exn) (l : list call) :
  json_loads query_json = inl e ->
  create_workflow_plan hash console str_error json_loads exn_str query_json l
  = ((if json_error e
      then "CRITICAL TOOL ERROR: Input was not valid JSON. You must pass a JSON string conforming to ResearchQuery."
      else "CRITICAL TOOL ERROR: Failed to call Composio CREATE_PLAN. Error: "
           ++ exn_str e), l).
Proof.
  intros Hbad. unfold create_workflow_plan, try_except, loads, lift, bind.
  rewrite Hbad. now destruct e.
Qed.

(** The Plan Wrapper on a payload that does not validate. *)
Lemma plan_wrapper_invalid (query_json : string) (payload : value) (e : exn)
  (l : list call) :
  json_loads query_json = inr payload ->
  ResearchQuery_init payload = inl e ->
  create_workflow_plan hash console str_error json_loads exn_str query_json l
  = ("CRITICAL TOOL ERROR: Failed to call Composio CREATE_PLAN. Error: "
     ++ exn_str e, l).
Proof.
  intros Hloads Hbad.
  unfold create_workflow_plan.
  rewrite (try_except_handles _ _ _ l l e); [reflexivity| |].
  - after_loads Hloads. unfold bind at 1. now rewrite Hbad.
  - exact (ResearchQuery_init_error _ _ Hbad).
Qed.

(** X6: the outcomes of the Plan Wrapper, which has no other.  A text
    the decoder rejects gets the JSON message when the exception is
    [JSONDecodeError], and otherwise the text of the exception after
    [CRITICAL TOOL ERROR: Failed to call Composio CREATE_PLAN. Error: ];
    a payload that does not validate gets the text of its exception after
    the same words; in these cases the client is not called.  A payload
    that validates gets exactly one [create_plan] call, and the plan when
    the console can print the topic, the text of the failed [print] after
    the same words when it cannot.  The wrapper's [Error generating plan]
    branch is never taken. *)
Theorem plan_wrapper_outcomes (query_json : string) (l : list call) :
  create_workflow_plan hash console str_error json_loads exn_str query_json l
  = match json_loads query_json with
    | inl e =>
        ((if json_error e
          then "CRITICAL TOOL ERROR: Input was not valid JSON. You must pass a JSON string conforming to ResearchQuery."
          else "CRITICAL TOOL ERROR: Failed to call Composio CREATE_PLAN. Error: "
               ++ exn_str e), l)
    | inr payload =>
        match ResearchQuery_init payload with
        | inl e =>
            ("CRITICAL TOOL ERROR: Failed to call Composio CREATE_PLAN. Error: "
             ++ exn_str e, l)
        | inr query =>
            ((if encodable console (topic query)
              then "Plan successful. Session ID: "
                   ++ plan_session_id hash (topic query)
                   ++ ". Workflow steps: "
                   ++ repr (VList (map VStr plan_steps)) ++ "."
              else "CRITICAL TOOL ERROR: Failed to call Composio CREATE_PLAN. Error: "
                   ++ exn_str (UnicodeEncodeError
                                 ("-> Calling CREATE_PLAN for: "
                                  ++ use_case_of (topic query)))),
             (l ++ [CreatePlan (use_case_of (topic query))
                      [VStr "arxiv_search_tool_slug";
                       VStr "pubchem_query_tool_slug"]])%list)
        end
    end
  /\ String.prefix "Error generating plan"
       (fst (create_workflow_plan hash console str_error json_loads exn_str
               query_json l))
     = false.
Proof.
  destruct (json_loads query_json) as [e|payload] eqn:Hloads.
  - rewrite (plan_wrapper_undecoded _ _ l Hloads).
    split; [reflexivity|]. now destruct (json_error e).
  - destruct (ResearchQuery_init payload) as [e|query] eqn:Hinit.
    + rewrite (plan_wrapper_invalid _ _ _ l Hloads Hinit). now split.
    + destruct (encodable console (topic query)) eqn:Hprint.
      * rewrite (plan_wrapper_valid _ _ _ _ _ _ _ _ l Hloads Hinit Hprint).
        now split.
      * rewrite (plan_wrapper_unprintable _ _ _ _ _ _ _ _ l Hloads Hinit Hprint).
        now split.
Qed.

(** X7: the text [ScientistTasks.plan_workflow_task] hands to the planner,
    the JSON of the validated query, is accepted by the Plan Wrapper: once
    decoded it validates to the very same query, and the wrapper calls
    [create_plan] once for that query's topic and returns the plan, on
    every console that can print the topic (on another it returns the
    text of the failed [print]). *)
Theorem planning_task_input_is_accepted (query : ResearchQuery)
  (query_json : string) (l : list call) :
  json_loads query_json = inr (ResearchQuery_dict query) ->
  ResearchQuery_init (ResearchQuery_dict query) = inr query
  /\ create_workflow_plan hash console str_error json_loads exn_str
       query_json l
     = ((if encodable console (topic query)
         then "Plan successful. Session ID: "
              ++ plan_session_id hash (topic query)
              ++ ". Workflow steps: " ++ repr (VList (map VStr plan_steps))
              ++ "."
         else "CRITICAL TOOL ERROR: Failed to call Composio CREATE_PLAN. Error: "
              ++ exn_str (UnicodeEncodeError
                            ("-> Calling CREATE_PLAN for: "
                             ++ use_case_of (topic query)))),
        (l ++ [CreatePlan (use_case_of (topic query))
                 [VStr "arxiv_search_tool_slug";
                  VStr "pubchem_query_tool_slug"]])%list).
Proof.
  intros Hloads.
  assert (Hvalid : ResearchQuery_init (ResearchQuery_dict query) = inr query).
  { destruct query as [t o k]. now apply ResearchQuery_init_valid. }
  split; [exact Hvalid|].
  destruct (encodable console (topic query)) eqn:Hprint.
  - exact (plan_wrapper_valid _ _ _ _ _ _ _ _ l Hloads Hvalid Hprint).
  - exact (plan_wrapper_unprintable _ _ _ _ _ _ _ _ l Hloads Hvalid Hprint).
Qed.

(** X8: two valid queries on topics the console can print get the same
    text from the Plan Wrapper exactly when the hashes of their use cases
    agree: the session id is the only part of the text that can differ,
    and two topics whose use cases collide under [hash] share their
    session id. *)
Theorem plan_texts_differ_by_the_hash_alone (json1 json2 : string)
  (payload1 payload2 : value) (query1 query2 : ResearchQuery)
  (l : list call) :
  json_loads json1 = inr payload1 ->
  json_loads json2 = inr payload2 ->
  ResearchQuery_init payload1 = inr query1 ->
  ResearchQuery_init payload2 = inr query2 ->
  encodable console (topic query1) = true ->
  encodable console (topic query2) = true ->
  (fst (create_workflow_plan hash console str_error json_loads exn_str
          json1 l)
   = fst (create_workflow_plan hash console str_error json_loads exn_str
            json2 l)
   <-> hash (use_case_of (topic query1)) = hash (use_case_of (topic query2))).
Proof.
  intros L1 L2 V1 V2 P1 P2.
  rewrite (plan_wrapper_valid _ _ _ _ _ _ _ _ l L1 V1 P1),
    (plan_wrapper_valid _ _ _ _ _ _ _ _ l L2 V2 P2).
  cbn [fst]. split; intros H.
  - apply append_inj_l, append_inj_r in H.
    unfold plan_session_id in H. apply append_inj_l in H.
    now apply Z_to_string_inj.
  - unfold plan_session_id. now rewrite H.
Qed.

(** The Publish Wrapper on a text the decoder rejects. *)
Lemma publish_wrapper_undecoded (text : string) (e : exn) (l : list call) :
  json_loads text = inl e ->
  publish_final_report hash console json_loads exn_str text l
  = ((if json_error e
      then "JSON Error: The 'final_synthesis_json' input was not valid JSON. Ensure all fields in FinalSynthesis are present."
      else "CRITICAL TOOL ERROR: Failed to publish report. Error: "
           ++ exn_str e), l).
Proof.
  intros Hbad. unfold publish_final_report, try_except, loads, lift, bind.
  rewrite Hbad. now destruct e.
Qed.

(** The Publish Wrapper on a payload that does not validate. *)
Lemma publish_wrapper_invalid (text : string) (payload : value) (e : exn)
  (l : list call) :
  json_loads text = inr payload ->
  FinalSynthesis_init payload = inl e ->
  publish_final_report hash console json_loads exn_str text l
  = ("CRITICAL TOOL ERROR: Failed to publish report. Error: " ++ exn_str e, l).
Proof.
  intros Hloads Hbad.
  unfold publish_final_report.
  rewrite (try_except_handles _ _ _ l l e); [reflexivity| |].
  - after_loads Hloads. unfold bind at 1. now rewrite Hbad.
  - exact (FinalSynthesis_init_error _ _ Hbad).
Qed.

(** The Publish Wrapper on a payload that validates. *)
Lemma publish_wrapper_valid (text : string) (payload : value)
  (s : FinalSynthesis) (l : list call) :
  json_loads text = inr payload ->
  FinalSynthesis_init payload = inr s ->
  publish_final_report hash console json_loads exn_str text l
  = ((if encodable console (hypothesis s)
      then "Final Synthesis published successfully. Report URL: "
           ++ "https://notion.com/reports/"
           ++ Z_to_string (hash (hypothesis s)) ++ "."
      else "CRITICAL TOOL ERROR: Failed to publish report. Error: "
           ++ exn_str
                (UnicodeEncodeError
                   ("-> Calling Composio Notion Tool: Creating page '"
                    ++ hypothesis s ++ "'"))), l).
Proof.
  intros Hloads Hvalid. publish_after_loads Hloads. rewrite Hvalid.
  cbv beta iota. unfold bind at 1.
  destruct (encodable console (hypothesis s)) eqn:Hprint.
  - rewrite print_line_ok by now rewrite publish_line_encodable.
    reflexivity.
  - rewrite print_line_fails by now rewrite publish_line_encodable.
    reflexivity.
Qed.

(** X9: the Publish Wrapper never calls the client, and has these
    outcomes: for a text the decoder rejects, the JSON message when the
    exception is [JSONDecodeError] and otherwise the text of the exception
    after [CRITICAL TOOL ERROR: Failed to publish report. Error: ]; the
    text of the validation's exception after the same words for a payload
    that does not validate; and for one that validates the confirmation
    with the address [https://notion.com/reports/<hash(hypothesis)>] when
    the console can print the hypothesis, the text of the failed [print]
    after the same words when it cannot. *)
Theorem publish_wrapper_outcomes (text : string) (l : list call) :
  snd (publish_final_report hash console json_loads exn_str text l) = l
  /\ fst (publish_final_report hash console json_loads exn_str text l)
     = match json_loads text with
       | inl e =>
           if json_error e
           then "JSON Error: The 'final_synthesis_json' input was not valid JSON. Ensure all fields in FinalSynthesis are present."
           else "CRITICAL TOOL ERROR: Failed to publish report. Error: "
                ++ exn_str e
       | inr payload =>
           match FinalSynthesis_init payload with
           | inl e =>
               "CRITICAL TOOL ERROR: Failed to publish report. Error: "
               ++ exn_str e
           | inr s =>
               if encodable console (hypothesis s)
               then "Final Synthesis published successfully. Report URL: "
                    ++ "https://notion.com/reports/"
                    ++ Z_to_string (hash (hypothesis s)) ++ "."
               else "CRITICAL TOOL ERROR: Failed to publish report. Error: "
                    ++ exn_str
                         (UnicodeEncodeError
                            ("-> Calling Composio Notion Tool: Creating page '"
                             ++ hypothesis s ++ "'"))
           end
       end.
Proof.
  destruct (json_loads text) as [e|payload] eqn:Hloads.
  - rewrite (publish_wrapper_undecoded _ _ l Hloads). now split.
  - destruct (FinalSynthesis_init payload) as [e|s] eqn:Hinit.
    + rewrite (publish_wrapper_invalid _ _ _ l Hloads Hinit). now split.
    + rewrite (publish_wrapper_valid _ _ _ l Hloads Hinit). now split.
Qed.

(** X10: the address of a published report depends on the hypothesis
    alone, and through its hash: two valid syntheses whose hypotheses the
    console can print get the same confirmation exactly when the hashes of
    their hypotheses agree, whatever their four other fields. *)
Theorem report_address_follows_the_hypothesis (text1 text2 : string)
  (payload1 payload2 : value) (s1 s2 : FinalSynthesis) (l : list call) :
  json_loads text1 = inr payload1 ->
  json_loads text2 = inr payload2 ->
  FinalSynthesis_init payload1 = inr s1 ->
  FinalSynthesis_init payload2 = inr s2 ->
  encodable console (hypothesis s1) = true ->
  encodable console (hypothesis s2) = true ->
  (fst (publish_final_report hash console json_loads exn_str text1 l)
   = fst (publish_final_report hash console json_loads exn_str text2 l)
   <-> hash (hypothesis s1) = hash (hypothesis s2)).
Proof.
  intros L1 L2 V1 V2 P1 P2.
  rewrite (publish_wrapper_valid _ _ _ l L1 V1),
    (publish_wrapper_valid _ _ _ l L2 V2), P1, P2.
  cbn [fst]. split; intros H.
  - apply append_inj_l, append_inj_l, append_inj_r in H.
    now apply Z_to_string_inj.
  - now rewrite H.
Qed.

(** ** The Parallel Research Wrapper *)

(** Every slug of the table is a text that is not empty and is not itself
    a name of the table. *)
Lemma TOOL_SLUGS_values (name : string) (x : value) :
  lookup name TOOL_SLUGS = Some x ->
  truthy x = true /\ hashable x = true /\ resolved x = x.
Proof.
  unfold TOOL_SLUGS. cbn [lookup].
  repeat (destruct (String.eqb _ name);
          [intros [= <-]; repeat split |]).
  discriminate.
Qed.

Lemma visited_iter (v : value) (xs : list value) (l : list call) :
  visited v = Some xs -> iter v l = (inr xs, l).
Proof.
  unfold visited, returned. destruct v; simpl; try discriminate;
    now intros [= <-].
Qed.

Lemma unvisited_iter (v : value) (l : list call) :
  visited v = None ->
  exists e, iter v l = (inl e, l) /\ json_error e = false.
Proof.
  unfold visited, returned. destruct v; simpl; try discriminate;
    intros _; eexists; split; reflexivity.
Qed.

(** The request prepared for a dict whose slug can be hashed. *)
Lemma prepare_request_prepared (req : value) (l : list call) :
  preparable req = true ->
  prepare_request req l = (inr (prepared req), l).
Proof.
  destruct req as [| | | | | |d]; try discriminate.
  unfold preparable, prepared, prepare_request, field, items_of.
  intros Hhash. unfold bind at 1. unfold get at 1.
  destruct (lookup "tool_slug" d) as [asked|] eqn:Easked;
    unfold ret at 1; unfold bind at 1; unfold get_by_value.
  - rewrite Hhash.
    destruct asked as [| | | |s| |]; try discriminate Hhash;
      try (cbn; rewrite ?Easked; destruct (lookup "arguments" d);
           reflexivity).
    cbn [resolved].
    destruct (lookup s TOOL_SLUGS) as [x|] eqn:Ex.
    + destruct (TOOL_SLUGS_values _ _ Ex) as (Ht & _ & _).
      unfold ret at 1, bind at 1. rewrite Ht.
      cbn. destruct (lookup "arguments" d); reflexivity.
    + cbn. rewrite Easked. destruct (lookup "arguments" d); reflexivity.
  - cbn. rewrite Easked. destruct (lookup "arguments" d); reflexivity.
Qed.

Lemma prepare_request_refused (req : value) (l : list call) :
  preparable req = false ->
  exists e, prepare_request req l = (inl e, l) /\ json_error e = false.
Proof.
  intros Hbad.
  destruct (quiet_prepare_request req l) as [(r & E)|(e & E & He)].
  - exfalso. revert E Hbad.
    destruct req as [| | | | | |d]; try discriminate.
    unfold preparable, prepare_request, field.
    unfold bind at 1. unfold get at 1.
    destruct (lookup "tool_slug" d) as [asked|]; [|discriminate].
    unfold ret at 1, bind at 1, get_by_value.
    intros E Hbad. rewrite Hbad in E. discriminate E.
  - now exists e.
Qed.

Lemma prepare_all (reqs : list value) (l : list call) :
  forallb preparable reqs = true ->
  map_m prepare_request reqs l = (inr (map prepared reqs), l).
Proof.
  induction reqs as [|req reqs IH]; simpl; [reflexivity|].
  intros H. apply andb_true_iff in H as [Hreq Hreqs].
  unfold bind at 1. rewrite (prepare_request_prepared _ _ Hreq).
  unfold bind at 1. now rewrite (IH Hreqs).
Qed.

Lemma prepare_none (reqs : list value) (l : list call) :
  forallb preparable reqs = false ->
  exists e, map_m prepare_request reqs l = (inl e, l) /\ json_error e = false.
Proof.
  induction reqs as [|req reqs IH]; simpl; [discriminate|].
  intros H. apply andb_false_iff in H.
  destruct (preparable req) eqn:Hreq.
  - destruct H as [H|H]; [discriminate|].
    destruct (IH H) as (e & E & He). exists e.
    unfold bind at 1. rewrite (prepare_request_prepared _ _ Hreq).
    unfold bind at 1. now rewrite E.
  - destruct (prepare_request_refused req l Hreq) as (e & E & He).
    exists e. unfold bind at 1. now rewrite E.
Qed.

(** X11: the slug resolution of the research wrapper.  For a request
    whose slug can be hashed the wrapper prepares a request whose slug is
    the table's slug when the asked slug is a name of [TOOL_SLUGS], and
    the asked slug itself otherwise ([None] when there is none), with the
    request's arguments or an empty dict.  Preparing what has been
    prepared changes nothing. *)
Theorem slug_resolution_is_idempotent (req : value) (l : list call) :
  preparable req = true ->
  prepare_request req l = (inr (prepared req), l)
  /\ field "tool_slug" (prepared req)
     = match field "tool_slug" req with
       | VStr name =>
           match lookup name TOOL_SLUGS with
           | Some slug => slug
           | None => VStr name
           end
       | other => other
       end
  /\ prepare_request (prepared req) l = (inr (prepared req), l).
Proof.
  intros Hreq. split; [now apply prepare_request_prepared|].
  split.
  { cbn. unfold resolved. now destruct (field "tool_slug" req). }
  assert (Hres : hashable (resolved (field "tool_slug" req)) = true
                 /\ resolved (resolved (field "tool_slug" req))
                    = resolved (field "tool_slug" req)).
  { destruct req as [| | | | | |d]; try discriminate.
    unfold preparable in Hreq.
    destruct (field "tool_slug" (VDict d)) as [| | | |s| |];
      try discriminate Hreq; try (split; reflexivity).
    cbn [resolved].
    destruct (lookup s TOOL_SLUGS) as [x|] eqn:Ex.
    - destruct (TOOL_SLUGS_values _ _ Ex) as (_ & Hh & Hr). now split.
    - split; [reflexivity|]. cbn [resolved]. now rewrite Ex. }
  destruct Hres as [Hh Hr].
  rewrite prepare_request_prepared.
  - f_equal. unfold prepared at 1.
    change (field "tool_slug" (prepared req))
      with (resolved (field "tool_slug" req)).
    change (lookup "arguments" (items_of (prepared req)))
      with (Some (match lookup "arguments" (items_of req) with
                  | Some a => a
                  | None => VDict []
                  end)).
    now rewrite Hr.
  - exact Hh.
Qed.

(** The research wrapper on a payload it can send. *)
Lemma research_wrapper_batch (session_id requests_json : string)
  (payload : value) (reqs : list value) (l : list call) :
  json_loads requests_json = inr payload ->
  visited payload = Some reqs ->
  forallb preparable reqs = true ->
  execute_parallel_research json_loads exn_str session_id requests_json l
  = (research_summary,
     (l ++ [MultiExecute (map prepared reqs) session_id])%list).
Proof.
  intros Hloads Hiter Hreqs.
  unfold execute_parallel_research. apply try_except_returns.
  after_loads Hloads. unfold bind at 1. rewrite (visited_iter _ _ _ Hiter).
  unfold bind at 1. rewrite (prepare_all _ _ Hreqs).
  reflexivity.
Qed.

(** X12: on a payload it can loop over and whose items it can all
    prepare, the research wrapper calls [multi_execute_tool] exactly once,
    with one prepared request per item, in order, and returns one fixed
    text, which depends neither on the requests nor on the session id: the
    JSON list of the workbench keys of the batch's result slots, then the
    slots themselves. *)
Theorem research_wrapper_sends_one_batch (session_id requests_json : string)
  (payload : value) (reqs : list value) (l : list call) :
  json_loads requests_json = inr payload ->
  visited payload = Some reqs ->
  forallb preparable reqs = true ->
  execute_parallel_research json_loads exn_str session_id requests_json l
  = (research_summary,
     (l ++ [MultiExecute (map prepared reqs) session_id])%list)
  /\ List.length (map prepared reqs) = List.length reqs
  /\ exists batch,
       returned (multi_execute_tool (map prepared reqs) session_id)
       = inr batch
       /\ research_summary
          = "Parallel execution successful. Raw data saved to Workbench. "
            ++ "Workbench Keys (JSON list): "
            ++ json_dumps
                 (VList (map (field "workbench_key") (result_slots batch)))
            ++ ". Summary: " ++ repr (VList (result_slots batch)).
Proof.
  intros Hloads Hiter Hreqs.
  split; [now apply (research_wrapper_batch _ _ payload)|].
  split; [apply length_map|].
  eexists. split; reflexivity.
Qed.

(** X13: all or nothing.  When the payload cannot be looped over (a
    number, a boolean, null), or one of its items cannot be prepared (it
    is no dict, or its slug is a list or a dict), the research wrapper
    returns the text of the exception after
    [CRITICAL TOOL ERROR: Failed to call Composio MULTI_EXECUTE. Error: ]
    and calls the client for nothing: no part of the batch is sent. *)
Theorem research_wrapper_all_or_nothing (session_id requests_json : string)
  (payload : value) (l : list call) :
  json_loads requests_json = inr payload ->
  sendable payload = false ->
  exists e,
    execute_parallel_research json_loads exn_str session_id requests_json l
    = ("CRITICAL TOOL ERROR: Failed to call Composio MULTI_EXECUTE. Error: "
       ++ exn_str e, l).
Proof.
  intros Hloads Hbad. unfold sendable in Hbad.
  destruct (visited payload) as [reqs|] eqn:Hiter.
  - destruct (prepare_none reqs l Hbad) as (e & E & He). exists e.
    unfold execute_parallel_research.
    rewrite (try_except_handles _ _ _ l l e); [reflexivity| |exact He].
    after_loads Hloads. unfold bind at 1. rewrite (visited_iter _ _ _ Hiter).
    unfold bind at 1. now rewrite E.
  - destruct (unvisited_iter payload l Hiter) as (e & E & He). exists e.
    unfold execute_parallel_research.
    rewrite (try_except_handles _ _ _ l l e); [reflexivity| |exact He].
    after_loads Hloads. unfold bind at 1. now rewrite E.
Qed.

(** X14: the example requests [ScientistTasks.parallel_research_task]
    shows the agent name their tools by the names of [TOOL_SLUGS]; handed
    to the research wrapper, they are sent as one batch of two requests
    whose slugs are the table's slugs for arXiv and PubChem, each with its
    arguments unchanged. *)
Theorem example_requests_are_resolved (query : ResearchQuery)
  (session_id requests_json : string) (l : list call) :
  json_loads requests_json
  = inr (VList (map ToolExecutionRequest_dict (example_requests query))) ->
  snd (execute_parallel_research json_loads exn_str session_id
         requests_json l)
  = (l ++ [MultiExecute
             [ VDict [ ("tool_slug", VStr "arxiv_search_tool_slug");
                       ("arguments",
                        VDict [ ("query", VStr (topic query ++ " prior art"));
                                ("max_results", VInt 5) ]) ];
               VDict [ ("tool_slug", VStr "pubchem_query_tool_slug");
                       ("arguments",
                        VDict [ ("keywords",
                                 VList (map VStr (keywords query)));
                                ("compound_type", VStr "delivery vehicle") ]) ] ]
             session_id])%list.
Proof.
  intros Hloads.
  now rewrite (research_wrapper_batch session_id requests_json _ _ l Hloads
                 eq_refl eq_refl).
Qed.

(** ** The Remote Analysis Wrapper *)

(** X15: the Remote Analysis Wrapper on any JSON payload.  A payload that
    cannot be looped over (a number, a boolean, null) gets the text of the
    exception after
    [CRITICAL TOOL ERROR: Failed to run data analysis. Error: ] and no
    client call.  Any other payload gets one retrieve per visited item (the
    elements of a list, but also the keys of an object and the characters
    of a text), then one remote execution, and the one and the same
    [Analysis complete] text, whatever the retrieves returned. *)
Theorem analysis_wrapper_outcomes (workbench_keys_json : string)
  (payload : value) (l : list call) :
  json_loads workbench_keys_json = inr payload ->
  match visited payload with
  | Some keys =>
      run_data_analysis hash console str_error json_loads exn_str
        workbench_keys_json l
      = ("Analysis complete. Raw analysis output (stdout JSON): "
         ++ json_dumps analysis_output,
         (l ++ map retrieve_call keys
            ++ [RemoteBash ("analyze_data_from_workbench(keys="
                            ++ str payload ++ ")")])%list)
  | None =>
      exists e,
        run_data_analysis hash console str_error json_loads exn_str
        workbench_keys_json l
        = ("CRITICAL TOOL ERROR: Failed to run data analysis. Error: "
           ++ exn_str e, l)
  end.
Proof.
  intros Hloads. destruct (visited payload) as [keys|] eqn:Hiter.
  - unfold run_data_analysis. apply try_except_returns.
    after_loads Hloads. unfold bind at 1. rewrite (visited_iter _ _ _ Hiter).
    unfold bind at 1. rewrite retrieve_loop.
    cbn. now rewrite <- app_assoc.
  - destruct (unvisited_iter payload l Hiter) as (e & E & He). exists e.
    unfold run_data_analysis.
    rewrite (try_except_handles _ _ _ l l e); [reflexivity| |exact He].
    after_loads Hloads. unfold bind at 1. now rewrite E.
Qed.

(** X16: the research stage feeds the analysis stage.  The text the
    research wrapper returns for a batch it could send contains the JSON
    list of the batch's workbench keys; given that list (decoded back to
    the two keys), the analysis wrapper retrieves the two keys, each
    retrieve succeeds, and the remote execution follows. *)
Theorem research_keys_feed_the_analysis (session_id requests_json : string)
  (payload : value) (l l' : list call) :
  json_loads requests_json = inr payload ->
  sendable payload = true ->
  json_loads (json_dumps (VList (map VStr KNOWN_KEYS)))
  = inr (VList (map VStr KNOWN_KEYS)) ->
  contains (json_dumps (VList (map VStr KNOWN_KEYS)))
    (fst (execute_parallel_research json_loads exn_str session_id
            requests_json l))
  = true
  /\ snd (run_data_analysis hash console str_error json_loads exn_str
            (json_dumps (VList (map VStr KNOWN_KEYS))) l')
     = (l' ++ [ retrieve_call (VStr "ARXIV-RAW-DATA-KEY-123");
                retrieve_call (VStr "PUBCHEM-RAW-DATA-KEY-456");
                RemoteBash "analyze_data_from_workbench(keys=['ARXIV-RAW-DATA-KEY-123', 'PUBCHEM-RAW-DATA-KEY-456'])" ])%list
  /\ Forall (fun key =>
               fst (remote_workbench hash console str_error "retrieve" key VNone l')
               = inr (retrieved key))
       (map VStr KNOWN_KEYS).
Proof.
  intros Hloads Hsend Hkeys. unfold sendable in Hsend.
  destruct (visited payload) as [reqs|] eqn:Hiter; [|discriminate].
  rewrite (research_wrapper_batch session_id requests_json payload reqs l
             Hloads Hiter Hsend).
  split; [vm_compute; reflexivity|]. split.
  - unfold run_data_analysis, try_except. after_loads Hkeys.
    unfold bind at 1, iter, ret at 1.
    unfold bind at 1. rewrite retrieve_loop.
    cbn. now rewrite <- app_assoc.
  - repeat constructor; now rewrite retrieve_answer.
Qed.

End MoreWrapperProperties.

(* ================================================================== *)
(** * The comprehension of the research wrapper *)
(* ================================================================== *)

(** X18: the comprehension that gathers the workbench keys of a list of
    result dicts keeps, in order, exactly the keys that are truthy: a
    result without a key, or with [None] or an empty text for a key, adds
    nothing, so no such key reaches the JSON list the wrapper prints. *)
Theorem collected_keys_are_the_truthy_ones
  (results : list (list (string * value))) (l : list call) :
  collect_keys (map VDict results) l
  = (inr (filter truthy (map (field "workbench_key") (map VDict results))), l)
  /\ Forall (fun k => truthy k = true)
       (filter truthy (map (field "workbench_key") (map VDict results))).
Proof.
  split.
  - revert l. induction results as [|d results IH]; intros l; [reflexivity|].
    cbn [map collect_keys filter]. unfold bind at 1. unfold get at 1.
    unfold field at 1 2.
    destruct (lookup "workbench_key" d) as [k|] eqn:E; unfold ret at 1.
    + destruct (truthy k); [|apply IH].
      unfold bind at 1. unfold get at 1. rewrite E.
      unfold ret at 1, bind at 1. now rewrite IH.
    + cbn [truthy]. apply IH.
  - apply Forall_forall. intros k Hk. now apply filter_In in Hk.
Qed.


(* ================================================================== *)
(** * More concrete runs *)
(* ================================================================== *)

(** X7 on the query of the end-to-end scenario, printed on an ASCII
    console. *)
Lemma planning_task_input_is_accepted_witness :
  more_json_loads (json_dumps (ResearchQuery_dict graphene_query))
  = inr (ResearchQuery_dict graphene_query)
  /\ ResearchQuery_init (ResearchQuery_dict graphene_query)
     = inr graphene_query
  /\ create_workflow_plan sample_hash ascii_console sample_str_error
       more_json_loads sample_exn_str
       (json_dumps (ResearchQuery_dict graphene_query)) []
     = ("Plan successful. Session ID: "
        ++ plan_session_id sample_hash (topic graphene_query)
        ++ ". Workflow steps: " ++ repr (VList (map VStr plan_steps)) ++ ".",
        [CreatePlan (use_case_of (topic graphene_query))
           [VStr "arxiv_search_tool_slug"; VStr "pubchem_query_tool_slug"]]).
Proof.
  split; [reflexivity|].
  exact (planning_task_input_is_accepted sample_hash ascii_console
           sample_str_error more_json_loads sample_exn_str graphene_query
           (json_dumps (ResearchQuery_dict graphene_query)) [] eq_refl).
Defined.

(** X8 on two queries on two topics, whose use cases the hash tells
    apart. *)
Lemma plan_texts_differ_by_the_hash_alone_witness :
  more_json_loads (json_dumps query_graphene) = inr query_graphene
  /\ more_json_loads (json_dumps query_other_topic) = inr query_other_topic
  /\ Z.eqb (sample_hash (use_case_of "graphene quantum dots for drug delivery"))
       (sample_hash (use_case_of "carbon nanotubes"))
     = false
  /\ (fst (create_workflow_plan sample_hash ascii_console sample_str_error
             more_json_loads sample_exn_str (json_dumps query_graphene) [])
      = fst (create_workflow_plan sample_hash ascii_console sample_str_error
               more_json_loads sample_exn_str (json_dumps query_other_topic)
               [])
      <-> sample_hash (use_case_of "graphene quantum dots for drug delivery")
          = sample_hash (use_case_of "carbon nanotubes")).
Proof.
  split; [reflexivity|]. split; [reflexivity|].
  split; [vm_compute; reflexivity|].
  exact (plan_texts_differ_by_the_hash_alone sample_hash ascii_console
           sample_str_error more_json_loads
           sample_exn_str (json_dumps query_graphene)
           (json_dumps query_other_topic)
           query_graphene query_other_topic
           graphene_query
           {| topic := "carbon nanotubes";
              target_output := "Draft full experimental protocol";
              keywords := ["graphene"; "delivery"] |}
           [] eq_refl eq_refl eq_refl eq_refl eq_refl eq_refl).
Defined.

(** X10 on two syntheses with two hypotheses, which the hash tells
    apart. *)
Lemma report_address_follows_the_hypothesis_witness :
  more_json_loads (json_dumps synthesis_complete) = inr synthesis_complete
  /\ more_json_loads (json_dumps synthesis_other_hypothesis)
     = inr synthesis_other_hypothesis
  /\ Z.eqb (sample_hash "Quantum dots improve delivery.")
       (sample_hash "Nanotubes improve delivery.")
     = false
  /\ (fst (publish_final_report sample_hash ascii_console more_json_loads
             sample_exn_str (json_dumps synthesis_complete) [])
      = fst (publish_final_report sample_hash ascii_console more_json_loads
               sample_exn_str (json_dumps synthesis_other_hypothesis) [])
      <-> sample_hash "Quantum dots improve delivery."
          = sample_hash "Nanotubes improve delivery.").
Proof.
  split; [reflexivity|]. split; [reflexivity|].
  split; [vm_compute; reflexivity|].
  exact (report_address_follows_the_hypothesis sample_hash ascii_console
           more_json_loads
           sample_exn_str (json_dumps synthesis_complete)
           (json_dumps synthesis_other_hypothesis)
           synthesis_complete synthesis_other_hypothesis
           {| hypothesis := "Quantum dots improve delivery.";
              protocol_summary := "Three steps.";
              analysis_findings := "Three compounds passed.";
              prior_art_reference_links := [];
              next_steps := "In-vitro testing." |}
           {| hypothesis := "Nanotubes improve delivery.";
              protocol_summary := "Three steps.";
              analysis_findings := "Three compounds passed.";
              prior_art_reference_links := [];
              next_steps := "In-vitro testing." |}
           [] eq_refl eq_refl eq_refl eq_refl eq_refl eq_refl).
Defined.

(** Two syntheses that share their hypothesis only get one address. *)
Example same_hypothesis_same_address :
  String.eqb (json_dumps synthesis_complete)
    (json_dumps synthesis_same_hypothesis) = false
  /\ output (publish_final_report sample_hash ascii_console more_json_loads
               sample_exn_str (json_dumps synthesis_complete))
     = output (publish_final_report sample_hash ascii_console more_json_loads
                 sample_exn_str (json_dumps synthesis_same_hypothesis)).
Proof. split; vm_compute; reflexivity. Qed.

(** X11 on a request that names its tool by the table's name. *)
Lemma slug_resolution_is_idempotent_witness :
  preparable (VDict [("tool_slug", VStr "ARXIV_SEARCH")]) = true
  /\ prepare_request (VDict [("tool_slug", VStr "ARXIV_SEARCH")]) []
     = (inr (VDict [ ("tool_slug", VStr "arxiv_search_tool_slug");
                     ("arguments", VDict []) ]), [])
  /\ prepare_request (VDict [ ("tool_slug", VStr "arxiv_search_tool_slug");
                              ("arguments", VDict []) ]) []
     = (inr (VDict [ ("tool_slug", VStr "arxiv_search_tool_slug");
                     ("arguments", VDict []) ]), []).
Proof.
  split; [reflexivity|].
  pose proof (slug_resolution_is_idempotent
                (VDict [("tool_slug", VStr "ARXIV_SEARCH")]) [] eq_refl)
    as (H1 & _ & H2).
  split; [exact H1 | exact H2].
Defined.

(** X12 on a list of two requests, one for a tool the table does not
    know. *)
Lemma research_wrapper_sends_one_batch_witness :
  more_json_loads (json_dumps request_list) = inr request_list
  /\ visited request_list = Some (items request_list)
  /\ forallb preparable (items request_list) = true
  /\ execute_parallel_research more_json_loads sample_exn_str "sess-1"
       (json_dumps request_list) []
     = (research_summary,
        [ MultiExecute
            [ VDict [ ("tool_slug", VStr "arxiv_search_tool_slug");
                      ("arguments", VDict [("max_results", VInt 5)]) ];
              VDict [ ("tool_slug", VStr "my_own_tool");
                      ("arguments", VDict []) ] ]
            "sess-1" ]).
Proof.
  split; [reflexivity|]. split; [reflexivity|]. split; [reflexivity|].
  exact (proj1 (research_wrapper_sends_one_batch more_json_loads
                  sample_exn_str "sess-1" (json_dumps request_list)
                  request_list (items request_list) []
                  eq_refl eq_refl eq_refl)).
Defined.

(** X13 on a list whose second item is a text. *)
Lemma research_wrapper_all_or_nothing_witness :
  more_json_loads (json_dumps request_list_with_text)
  = inr request_list_with_text
  /\ sendable request_list_with_text = false
  /\ exists e,
       execute_parallel_research more_json_loads sample_exn_str "sess-1"
         (json_dumps request_list_with_text) []
       = ("CRITICAL TOOL ERROR: Failed to call Composio MULTI_EXECUTE. Error: "
          ++ sample_exn_str e, []).
Proof.
  split; [reflexivity|]. split; [reflexivity|].
  exact (research_wrapper_all_or_nothing more_json_loads sample_exn_str
           "sess-1" (json_dumps request_list_with_text)
           request_list_with_text [] eq_refl eq_refl).
Defined.

(** X14 on the query of the end-to-end scenario. *)
Lemma example_requests_are_resolved_witness :
  more_json_loads
    (json_dumps
       (VList (map ToolExecutionRequest_dict (example_requests graphene_query))))
  = inr (VList (map ToolExecutionRequest_dict
                  (example_requests graphene_query)))
  /\ snd (execute_parallel_research more_json_loads sample_exn_str "sess-1"
            (json_dumps
               (VList (map ToolExecutionRequest_dict
                         (example_requests graphene_query)))) [])
     = [ MultiExecute
           [ VDict [ ("tool_slug", VStr "arxiv_search_tool_slug");
                     ("arguments",
                      VDict [ ("query",
                               VStr "graphene quantum dots for drug delivery prior art");
                              ("max_results", VInt 5) ]) ];
             VDict [ ("tool_slug", VStr "pubchem_query_tool_slug");
                     ("arguments",
                      VDict [ ("keywords",
                               VList [VStr "graphene"; VStr "delivery"]);
                              ("compound_type", VStr "delivery vehicle") ]) ] ]
           "sess-1" ].
Proof.
  split; [reflexivity|].
  exact (example_requests_are_resolved more_json_loads sample_exn_str
           graphene_query "sess-1"
           (json_dumps
              (VList (map ToolExecutionRequest_dict
                        (example_requests graphene_query))))
           [] eq_refl).
Defined.

(** X15 on a bare text given in place of a list of keys: one retrieve per
    character. *)
Lemma analysis_wrapper_outcomes_witness :
  more_json_loads (json_dumps (VStr "ab")) = inr (VStr "ab")
  /\ run_data_analysis sample_hash ascii_console sample_str_error
       more_json_loads sample_exn_str (json_dumps (VStr "ab")) []
     = ("Analysis complete. Raw analysis output (stdout JSON): "
        ++ json_dumps analysis_output,
        [ retrieve_call (VStr "a"); retrieve_call (VStr "b");
          RemoteBash "analyze_data_from_workbench(keys=ab)" ]).
Proof.
  split; [reflexivity|].
  exact (analysis_wrapper_outcomes sample_hash ascii_console sample_str_error
           more_json_loads sample_exn_str
           (json_dumps (VStr "ab")) (VStr "ab") [] eq_refl).
Defined.

(** X16 on the list of two requests. *)
Lemma research_keys_feed_the_analysis_witness :
  more_json_loads (json_dumps request_list) = inr request_list
  /\ sendable request_list = true
  /\ more_json_loads (json_dumps (VList (map VStr KNOWN_KEYS)))
     = inr (VList (map VStr KNOWN_KEYS))
  /\ contains (json_dumps (VList (map VStr KNOWN_KEYS)))
       (fst (execute_parallel_research more_json_loads sample_exn_str
               "sess-1" (json_dumps request_list) []))
     = true.
Proof.
  split; [reflexivity|]. split; [reflexivity|]. split; [reflexivity|].
  exact (proj1 (research_keys_feed_the_analysis sample_hash ascii_console
                  sample_str_error more_json_loads
                  sample_exn_str "sess-1" (json_dumps request_list)
                  request_list [] [] eq_refl eq_refl eq_refl)).
Defined.
